(** * EPUB image extraction and OCR batch pipelines

    A shallow embedding of [epub2img.py] and [img2text.py].

    Python [str] values are modelled as [string] (sequences of 8-bit
    characters, so the case mapping below is the ASCII one); [bytes]
    payloads are strings too.  A [pathlib.Path] is the list of its parts.
    The file system is a finite map from paths to file contents together
    with a finite set of directories.  Code that can raise returns a
    [result]; a [try]/[except Exception] is a [match] on that result. *)

From Stdlib Require Import String Ascii List Arith Lia Bool.
From stdpp Require Import base option list gmap strings fin_maps.

Local Open Scope string_scope.
Local Open Scope list_scope.

(** ** Exceptions and results *)

Inductive exn : Type :=
| ValueError
| FileExistsError
| FileNotFoundError
| NotADirectoryError
| IsADirectoryError
| OSError
| RuntimeError.

Inductive result (A : Type) : Type :=
| Ok (a : A)
| Raise (e : exn).

Arguments Ok {A} a.
Arguments Raise {A} e.

Definition rbind {A B : Type} (r : result A) (k : A -> result B) : result B :=
  match r with
  | Ok a => k a
  | Raise e => Raise e
  end.

Notation "'let*' x := r 'in' k" := (rbind r (fun x => k))
  (at level 10, x pattern, r at level 100, k at level 200).

(** ** Python string methods *)

Module PyStr.

(** [s[i:]] *)
Fixpoint slice_from (i : nat) (s : string) : string :=
  match i, s with
  | 0, _ => s
  | S _, EmptyString => EmptyString
  | S i', String _ s' => slice_from i' s'
  end.

(** [s[:i]] *)
Fixpoint slice_to (i : nat) (s : string) : string :=
  match i, s with
  | 0, _ => EmptyString
  | S _, EmptyString => EmptyString
  | S i', String a s' => String a (slice_to i' s')
  end.

(** [s.startswith(p)] *)
Definition startswith (s p : string) : bool := String.prefix p s.

(** [s.endswith(p)] *)
Definition endswith (s p : string) : bool :=
  Nat.leb (String.length p) (String.length s)
  && String.eqb (slice_from (String.length s - String.length p) s) p.

(** [sub in s] *)
Fixpoint contains (s sub : string) : bool :=
  String.prefix sub s
  || match s with
     | EmptyString => false
     | String _ s' => contains s' sub
     end.

(** [c in chars], for a single character *)
Fixpoint mem_char (c : ascii) (chars : string) : bool :=
  match chars with
  | EmptyString => false
  | String a chars' => Ascii.eqb a c || mem_char c chars'
  end.

(** [s.lstrip(chars)]: drops every leading character that occurs in
    [chars]; [chars] is a set of characters, not a prefix. *)
Fixpoint lstrip (s chars : string) : string :=
  match s with
  | EmptyString => EmptyString
  | String a s' => if mem_char a chars then lstrip s' chars else s
  end.

(** [s.rfind(c)], with [None] for Python's [-1] *)
Fixpoint rfind (s : string) (c : ascii) : option nat :=
  match s with
  | EmptyString => None
  | String a s' =>
      match rfind s' c with
      | Some i => Some (S i)
      | None => if Ascii.eqb a c then Some 0 else None
      end
  end.

(** [s.split(sep)[-1]]: the text after the last occurrence of the
    separator character, the whole string when there is none. *)
Definition split_last (s : string) (sep : ascii) : string :=
  match rfind s sep with
  | Some i => slice_from (S i) s
  | None => s
  end.

Definition lower_char (c : ascii) : ascii :=
  let n := nat_of_ascii c in
  if Nat.leb 65 n && Nat.leb n 90 then ascii_of_nat (n + 32) else c.

(** [s.lower()] *)
Fixpoint lower (s : string) : string :=
  match s with
  | EmptyString => EmptyString
  | String a s' => String (lower_char a) (lower s')
  end.

(** [x in l] for a list of strings *)
Definition in_list (x : string) (l : list string) : bool :=
  existsb (String.eqb x) l.

(** [c * n] *)
Fixpoint repeat_char (c : ascii) (n : nat) : string :=
  match n with
  | 0 => EmptyString
  | S n' => String c (repeat_char c n')
  end.

End PyStr.

(** ** pathlib *)

Abbreviation Path := (list string).

Module Pathlib.

(** [p.name] *)
Definition name (p : Path) : string := List.last p "".

(** [p.parent] *)
Definition parent (p : Path) : Path := removelast p.

(** [PurePath.suffix], computed on the final component:
    [i = name.rfind('.')], the suffix is [name[i:]] when
    [0 < i < len(name) - 1] and empty otherwise. *)
Definition suffix_of_name (nm : string) : string :=
  match PyStr.rfind nm "." with
  | Some i =>
      if Nat.ltb 0 i && Nat.ltb i (String.length nm - 1)
      then PyStr.slice_from i nm
      else ""
  | None => ""
  end.

Definition suffix (p : Path) : string := suffix_of_name (name p).

(** [PurePath.stem] *)
Definition stem_of_name (nm : string) : string :=
  match PyStr.rfind nm "." with
  | Some i =>
      if Nat.ltb 0 i && Nat.ltb i (String.length nm - 1)
      then PyStr.slice_to i nm
      else nm
  | None => nm
  end.

Definition stem (p : Path) : string := stem_of_name (name p).

(** [PurePath.with_suffix(sfx)]: [ValueError] for a suffix holding a
    separator, for a non-empty suffix that does not start with a dot,
    for the suffix ["."] and for a path with an empty name. *)
Definition with_suffix (p : Path) (sfx : string) : result Path :=
  if PyStr.contains sfx "/" then Raise ValueError
  else if (negb (String.eqb sfx "") && negb (PyStr.startswith sfx "."))
          || String.eqb sfx "."
  then Raise ValueError
  else
    let nm := name p in
    if String.eqb nm "" then Raise ValueError
    else
      let old_suffix := suffix_of_name nm in
      let nm' :=
        if String.eqb old_suffix "" then nm +:+ sfx
        else PyStr.slice_to (String.length nm - String.length old_suffix) nm +:+ sfx in
      Ok (parent p ++ [nm']).

(** [p.relative_to(root)]: [ValueError] unless [root] is a prefix of
    [p], part by part. *)
Fixpoint relative_to (p root : Path) {struct root} : result Path :=
  match root, p with
  | [], _ => Ok p
  | r :: root', c :: p' =>
      if String.eqb r c then relative_to p' root' else Raise ValueError
  | _ :: _, [] => Raise ValueError
  end.

(** [a / b] for a relative [b] *)
Definition joinpath (a b : Path) : Path := a ++ b.

End Pathlib.

(** ** The file system *)

Module Fs.

(** [dirs] and [files] are what is on disk.  [saved] is a journal kept
    for the statements below: the resource id and the path of every
    image file the extractor has written, oldest first. *)
Record World : Type := mkWorld {
  dirs : gset Path;
  files : gmap Path string;
  saved : list (string * Path)
}.

(** The empty path stands for the directory every path hangs from. *)
Definition is_dir (w : World) (p : Path) : bool :=
  bool_decide (p = [] \/ p ∈ dirs w).

Definition is_file (w : World) (p : Path) : bool :=
  match files w !! p with
  | Some _ => true
  | None => false
  end.

(** Every non-empty prefix of a path, shortest first. *)
Fixpoint prefixes (p : Path) : list Path :=
  match p with
  | [] => []
  | c :: p' => [c] :: List.map (cons c) (prefixes p')
  end.

(** [p.mkdir(parents=True, exist_ok=True)] *)
Definition mkdir_parents (w : World) (p : Path) : result World :=
  if is_file w p then Raise FileExistsError
  else if existsb (is_file w) (prefixes p) then Raise NotADirectoryError
  else Ok {| dirs := dirs w ∪ list_to_set (prefixes p);
             files := files w;
             saved := saved w |}.

(** [p.mkdir(exist_ok=True)] *)
Definition mkdir (w : World) (p : Path) : result World :=
  if is_dir w p then Ok w
  else if is_file w p then Raise FileExistsError
  else if is_dir w (Pathlib.parent p)
  then Ok {| dirs := dirs w ∪ {[ p ]}; files := files w; saved := saved w |}
  else if is_file w (Pathlib.parent p) then Raise NotADirectoryError
  else Raise FileNotFoundError.

(** [open(p, 'w')]: the file is created or truncated. *)
Definition open_w (w : World) (p : Path) : result World :=
  if is_dir w p then Raise IsADirectoryError
  else if is_dir w (Pathlib.parent p)
  then Ok {| dirs := dirs w; files := <[ p := "" ]> (files w); saved := saved w |}
  else if is_file w (Pathlib.parent p) then Raise NotADirectoryError
  else Raise FileNotFoundError.

(** [f.write(s)] on the file opened at [p] *)
Definition write (w : World) (p : Path) (s : string) : World :=
  {| dirs := dirs w;
     files := alter (fun c => c +:+ s) p (files w);
     saved := saved w |}.

(** [fnmatch] of one path component, for patterns made of literal
    characters and [*]. *)
Fixpoint fnmatch (pat nm : string) : bool :=
  match pat with
  | EmptyString => String.eqb nm ""
  | String c pat' =>
      if Ascii.eqb c "*" then
        (fix star (nm : string) : bool :=
           fnmatch pat' nm
           || match nm with
              | EmptyString => false
              | String _ nm' => star nm'
              end) nm
      else
        match nm with
        | EmptyString => false
        | String d nm' => Ascii.eqb c d && fnmatch pat' nm'
        end
  end.

(** [root] is a proper prefix of [p]. *)
Fixpoint is_under (root p : Path) : bool :=
  match root, p with
  | [], [] => false
  | [], _ :: _ => true
  | _ :: _, [] => false
  | r :: root', c :: p' => String.eqb r c && is_under root' p'
  end.

(** Everything on disk, in the order the traversal reports it. *)
Definition entries (w : World) : list Path :=
  elements (dirs w ∪ dom (files w)).

(** [list(root.rglob(pattern))]: pathlib yields nothing, and raises
    nothing, when [root] is not a directory. *)
Definition rglob (w : World) (root : Path) (pattern : string) : list Path :=
  if is_dir w root
  then List.filter (fun p => is_under root p && fnmatch pattern (Pathlib.name p))
                   (entries w)
  else [].

End Fs.

Import Fs.

Definition nl : string := String "010"%char EmptyString.

(** ** img2text.py *)

Module Img2Text.

Section Pipeline.

(** [reader.readtext(str(image_path), detail=0)]: the recognised
    lines in engine order, or the exception the engine raises. *)
Variable readtext : Path -> result (list string).

(** [os.getlogin()] *)
Variable getlogin : result string.

(** [datetime.utcnow().strftime('%Y-%m-%d %H:%M:%S')] at the moment
    the header of the given image is written. *)
Variable utcnow : Path -> string.

Variables input_root output_root : Path.

(** Lines 22-23 of [create_output_path]: the path arithmetic. *)
Definition output_path_of (input_path : Path) : result Path :=
  let* relative_path := Pathlib.relative_to input_path input_root in
  let* renamed := Pathlib.with_suffix relative_path ".txt" in
  Ok (Pathlib.joinpath output_root renamed).

Definition create_output_path (w : World) (input_path : Path)
  : result (Path * World) :=
  let* output_path := output_path_of input_path in
  let* w' := mkdir_parents w (Pathlib.parent output_path) in
  Ok (output_path, w').

Definition separator : string := PyStr.repeat_char "-" 50.

(** The four header lines, without their newlines. *)
Definition header_lines (image_path : Path) (user : string) : list string :=
  [ "Source Image: " +:+ Pathlib.name image_path;
    "Processing Date (UTC): " +:+ utcnow image_path;
    "Processed by: " +:+ user;
    separator ].

(** The [for text in result: f.write(text + '\n')] loop. *)
Definition write_results (w : World) (output_path : Path)
  (result : list string) : World :=
  fold_left (fun w text => write w output_path (text +:+ nl)) result w.

(** The logger calls are left out: they append to the run's log file
    and to the console, and to nothing else. *)
Definition process_image (w : World) (image_path output_path : Path)
  : bool * World :=
  match readtext image_path with
  | Raise _ => (false, w)
  | Ok result =>
      match open_w w output_path with
      | Raise _ => (false, w)
      | Ok w0 =>
          let w1 := write w0 output_path
                      ("Source Image: " +:+ Pathlib.name image_path +:+ nl) in
          let w2 := write w1 output_path
                      ("Processing Date (UTC): " +:+ utcnow image_path +:+ nl) in
          match getlogin with
          | Raise _ => (false, w2)
          | Ok user =>
              let w3 := write w2 output_path ("Processed by: " +:+ user +:+ nl) in
              let w4 := write w3 output_path (separator +:+ nl +:+ nl) in
              (true, write_results w4 output_path result)
          end
      end
  end.

Definition image_extensions : list string :=
  [".png"; ".jpg"; ".jpeg"; ".tiff"; ".bmp"].

(** Lines 69-70 of [main]. *)
Definition find_images (w : World) : list Path :=
  List.filter
    (fun img => PyStr.in_list (PyStr.lower (Pathlib.suffix img)) image_extensions)
    (rglob w input_root "*").

(** The run's state between two images: the disk and the two counters. *)
Record Run : Type := mkRun {
  world : World;
  successful : nat;
  failed : nat
}.

(** One iteration of the loop of [main]. [create_output_path] is
    called outside any [try], so what it raises ends the run. *)
Definition main_step (st : Run) (image_path : Path) : result Run :=
  let* (output_path, w1) := create_output_path (world st) image_path in
  let '(ok, w2) := process_image w1 image_path output_path in
  if ok
  then Ok (mkRun w2 (successful st + 1) (failed st))
  else Ok (mkRun w2 (successful st) (failed st + 1)).

Fixpoint main_loop (image_list : list Path) (st : Run) : result Run :=
  match image_list with
  | [] => Ok st
  | image_path :: rest =>
      let* st' := main_step st image_path in
      main_loop rest st'
  end.

Definition main (w : World) : result Run :=
  let* w0 := mkdir_parents w output_root in
  main_loop (find_images w0) (mkRun w0 0 0).

End Pipeline.

End Img2Text.

(** ** epub2img.py *)

Module Epub2Img.

(** The item kinds of ebooklib. *)
Inductive ItemType : Type :=
| ITEM_UNKNOWN | ITEM_IMAGE | ITEM_STYLE | ITEM_SCRIPT | ITEM_NAVIGATION
| ITEM_VECTOR | ITEM_FONT | ITEM_VIDEO | ITEM_AUDIO | ITEM_DOCUMENT
| ITEM_COVER | ITEM_SMIL.

Definition ItemType_eqb (a b : ItemType) : bool :=
  match a, b with
  | ITEM_UNKNOWN, ITEM_UNKNOWN | ITEM_IMAGE, ITEM_IMAGE | ITEM_STYLE, ITEM_STYLE
  | ITEM_SCRIPT, ITEM_SCRIPT | ITEM_NAVIGATION, ITEM_NAVIGATION
  | ITEM_VECTOR, ITEM_VECTOR | ITEM_FONT, ITEM_FONT | ITEM_VIDEO, ITEM_VIDEO
  | ITEM_AUDIO, ITEM_AUDIO | ITEM_DOCUMENT, ITEM_DOCUMENT
  | ITEM_COVER, ITEM_COVER | ITEM_SMIL, ITEM_SMIL => true
  | _, _ => false
  end.

(** [item.content] is [bytes] for what the reader loads and may be a
    [str] otherwise. *)
Inductive Content : Type :=
| Bytes (data : string)
| Str (text : string).

(** An item of the container: [item.id], [item.file_name],
    [item.media_type], [item.content] and [item.get_type()]. *)
Record EpubItem : Type := mkItem {
  item_id : string;
  file_name : string;
  media_type : string;
  content : Content;
  get_type : ItemType
}.

Record EpubBook : Type := mkBook {
  get_items : list EpubItem
}.

Definition get_items_of_type (book : EpubBook) (t : ItemType) : list EpubItem :=
  List.filter (fun it => ItemType_eqb (get_type it) t) (get_items book).

Definition valid_extensions : list string := ["jpeg"; "jpg"; "png"; "gif"].

(** Lines 43-44 and 82-83: the extension kept for a media-type suffix. *)
Definition checked_extension (img_extension : string) : string :=
  if negb (PyStr.in_list (PyStr.lower img_extension) valid_extensions)
  then "jpg"
  else img_extension.

(** Line 68-69: the two left-strips of a [src]. *)
Definition clean_src (src : string) : string :=
  PyStr.lstrip (PyStr.lstrip src "./") "../".

(** [output_folder / f"{id}.{img_extension}"], the name being taken as
    one part of the path: this is the path pathlib builds for an [id]
    that holds no path separator. *)
Definition image_path (output_folder : Path) (id img_extension : string) : Path :=
  Pathlib.joinpath output_folder [id +:+ "." +:+ img_extension].

Section Extractor.

(** The image codec. [Image_open data] is
    [Image.open(io.BytesIO(data))]; [Image_save img path] is the
    file contents [img.save(path)] produces, the format being taken
    from the path. Either may raise. *)
Variable Img : Type.
Variable Image_open : string -> result Img.
Variable Image_save : Img -> Path -> result string.

(** The HTML parser: the [src] attribute ([None] when absent) of
    every [img] element of the page, in document order. *)
Variable find_all_img_src : string -> result (list (option string)).

(** The container parser, [epub.read_epub(str(epub_path))]. *)
Variable read_epub : World -> Path -> result EpubBook.

Variables input_folder output_folder : Path.

(** What the two [try: Image.open(...); img.save(output_path)]
    blocks put on disk; nothing when the payload is not [bytes] or
    any step raises. A save that raises is taken to leave the disk as
    it was. *)
Definition save_result (w : World) (id : string) (img_data : Content)
  (output_path : Path) : result World :=
  let* data := match img_data with
               | Bytes data => Ok data
               | Str _ => Raise RuntimeError
               end in
  let* img := Image_open data in
  let* encoded := Image_save img output_path in
  let* w0 := open_w w output_path in
  Ok {| dirs := dirs w0;
        files := <[ output_path := encoded ]> (files w0);
        saved := saved w0 ++ [(id, output_path)] |}.

Definition save_image (w : World) (id : string) (img_data : Content)
  (output_path : Path) : World :=
  match save_result w id img_data output_path with
  | Ok w' => w'
  | Raise _ => w
  end.

(** The path an image item is saved at. *)
Definition target (folder : Path) (it : EpubItem) : Path :=
  image_path folder (item_id it)
    (checked_extension (PyStr.split_last (media_type it) "/")).

(** The item's payload decodes and its file can be written. *)
Definition writable (w : World) (it : EpubItem) (folder : Path) : bool :=
  match save_result w (item_id it) (content it) (target folder it) with
  | Ok _ => true
  | Raise _ => false
  end.

(** The image items a cleaned [src] resolves to. *)
Definition selected (w : World) (src : string) (folder : Path)
  (it : EpubItem) : bool :=
  PyStr.contains (file_name it) src
  && negb (String.eqb (media_type it) "image/svg+xml")
  && writable w it folder.

(** Lines 35-53: an item whose media type starts with [image/]. *)
Definition extract_direct (w : World) (item : EpubItem) (folder : Path) : World :=
  let img_extension := PyStr.split_last (media_type item) "/" in
  if String.eqb (PyStr.lower img_extension) "svg" then w
  else
    let img_extension := checked_extension img_extension in
    let output_path := image_path folder (item_id item) img_extension in
    save_image w (item_id item) (content item) output_path.

(** Lines 73-91: the body of the loop over the image items, for one
    cleaned [src]. *)
Definition resolve_one (w : World) (src : string) (image_item : EpubItem)
  (folder : Path) : World :=
  if PyStr.contains (file_name image_item) src then
    if String.eqb (media_type image_item) "image/svg+xml" then w
    else
      let img_extension :=
        checked_extension (PyStr.split_last (media_type image_item) "/") in
      let output_path := image_path folder (item_id image_item) img_extension in
      save_image w (item_id image_item) (content image_item) output_path
  else w.

(** Line 72: the loop over [get_items_of_type(ITEM_IMAGE)]. *)
Definition resolve_src (w : World) (src : string) (image_items : list EpubItem)
  (folder : Path) : World :=
  fold_left (fun w image_item => resolve_one w src image_item folder) image_items w.

(** Lines 61-91: the body of the loop over the [img] elements. *)
Definition extract_img (w : World) (img : option string) (book : EpubBook)
  (folder : Path) : World :=
  match img with
  | None => w
  | Some src =>
      if String.eqb src "" then w
      else if PyStr.startswith src "http" then w
      else resolve_src w (clean_src src) (get_items_of_type book ITEM_IMAGE) folder
  end.

Definition extract_images_from_item (w : World) (item : EpubItem)
  (book : EpubBook) (folder : Path) : World :=
  match content item with
  | Bytes data =>
      if PyStr.startswith (media_type item) "image/" then
        extract_direct w item folder
      else if String.eqb (media_type item) "application/xhtml+xml" then
        match find_all_img_src data with
        | Raise _ => w
        | Ok images =>
            fold_left (fun w img => extract_img w img book folder) images w
        end
      else w
  | Str _ => w
  end.

(** The stem is taken as one part of the subfolder's path, as pathlib
    does for every stem other than a lone dot. *)
Definition process_epub (w : World) (epub_path : Path) : bool * World :=
  let epub_output_folder :=
    Pathlib.joinpath output_folder [Pathlib.stem epub_path] in
  match mkdir w epub_output_folder with
  | Raise _ => (false, w)
  | Ok w1 =>
      match read_epub w1 epub_path with
      | Raise _ => (false, w1)
      | Ok book =>
          (true,
           fold_left
             (fun w item => extract_images_from_item w item book epub_output_folder)
             (get_items book) w1)
      end
  end.

Definition find_epubs (w : World) : list Path :=
  rglob w input_folder "*.epub".

Record Run : Type := mkRun {
  world : World;
  successful : nat;
  failed : nat
}.

(** One iteration of the loop of [process_all_epubs]. *)
Definition step (st : Run) (epub_path : Path) : Run :=
  let '(ok, w') := process_epub (world st) epub_path in
  if ok
  then mkRun w' (successful st + 1) (failed st)
  else mkRun w' (successful st) (failed st + 1).

Definition process_epubs (epub_files : list Path) (st : Run) : Run :=
  fold_left step epub_files st.

Definition process_all_epubs (w : World) : Run :=
  process_epubs (find_epubs w) (mkRun w 0 0).

(** [EPUBImageConverter(...)] followed by [process_all_epubs()]. *)
Definition main (w : World) : result Run :=
  let* w0 := mkdir_parents w output_folder in
  Ok (process_all_epubs w0).

End Extractor.

(** [w'] is [w] after some image saves: the directories are the same,
    no file has gone, and the journal has grown by entries that
    satisfy [P] and are files of [w']. *)
Definition grows (P : string * Path -> Prop) (w w' : World) : Prop :=
  dirs w' = dirs w
  /\ (forall p, is_file w p = true -> is_file w' p = true)
  /\ exists new,
       saved w' = saved w ++ new
       /\ Forall (fun e => P e /\ is_file w' (snd e) = true) new.

(** The journal entry of an item of [candidates] saved under [folder]. *)
Definition named_after (folder : Path) (candidates : list EpubItem)
  (e : string * Path) : Prop :=
  exists it, In it candidates /\ e = (item_id it, target folder it).

End Epub2Img.

(** ** The round trip of a mirrored path, as the specification words it *)

Module Mirror.

(** [s] without its trailing [sfx]; nothing when [s] does not end so. *)
Definition strip_suffix (s sfx : string) : option string :=
  if PyStr.endswith s sfx
  then Some (PyStr.slice_to (String.length s - String.length sfx) s)
  else None.

(** Strip the output root and the text extension from an output path,
    then re-attach the extension the image had. *)
Definition round_trip (output_root output_path : Path) (original_ext : string)
  : option Path :=
  match Pathlib.relative_to output_path output_root with
  | Raise _ => None
  | Ok rel =>
      match strip_suffix (Pathlib.name rel) ".txt" with
      | None => None
      | Some base => Some (Pathlib.parent rel ++ [base +:+ original_ext])
      end
  end.

End Mirror.

(** ** The layout of a text artifact, as the specification words it *)

Module Layout.

(** Each line followed by a newline. *)
Definition unlines (lines : list string) : string :=
  fold_right (fun line rest => line +:+ nl +:+ rest) "" lines.

End Layout.

(** ** Sample runs *)

Module Sample.

(** A disk with two images and a text file under [book_images]. *)
Definition images_disk : World :=
  {| dirs := {[ ["book_images"]; ["book_images"; "jung"] ]};
     files := {[ ["book_images"; "jung"; "page1.jpg"] := "jpeg bytes" ]}
              ∪ {[ ["book_images"; "jung"; "a.png"] := "png bytes" ]}
              ∪ {[ ["book_images"; "jung"; "notes.md"] := "notes" ]};
     saved := [] |}.

(** An engine that raises on [a.png] and reads two lines elsewhere. *)
Definition readtext (image_path : Path) : result (list string) :=
  if String.eqb (Pathlib.name image_path) "a.png"
  then Raise RuntimeError
  else Ok ["Hello"; "World"].

Definition utcnow (image_path : Path) : string := "2024-01-01 00:00:00".

Definition input_root : Path := ["book_images"].
Definition output_root : Path := ["text_output"].

Definition a_png : Path := ["book_images"; "jung"; "a.png"].
Definition a_txt : Path := ["text_output"; "jung"; "a.txt"].
Definition page1_jpg : Path := ["book_images"; "jung"; "page1.jpg"].
Definition page1_txt : Path := ["text_output"; "jung"; "page1.txt"].

(** The disk once [text_output/jung] has been created. *)
Definition mirrored_disk : World :=
  {| dirs := dirs images_disk ∪ list_to_set (prefixes ["text_output"; "jung"]);
     files := files images_disk;
     saved := saved images_disk |}.

(** The disk once [text_output/jung/page1.txt] has been opened. *)
Definition opened_disk : World :=
  {| dirs := dirs mirrored_disk;
     files := <[ page1_txt := "" ]> (files mirrored_disk);
     saved := saved mirrored_disk |}.

(** The disk once [text_output] has been created. *)
Definition ready_disk : World :=
  {| dirs := dirs images_disk ∪ list_to_set (prefixes output_root);
     files := files images_disk;
     saved := saved images_disk |}.

Definition main (root : Path) (w : World) : result Img2Text.Run :=
  Img2Text.main readtext (Ok "ishan") utcnow root output_root w.

(** The whole OCR run over the two images. *)
Definition ocr_main_run : Img2Text.Run :=
  match main input_root images_disk with
  | Ok st => st
  | Raise _ => Img2Text.mkRun images_disk 0 0
  end.

End Sample.

(** ** Sample containers *)

Module SampleEpub.

Import Epub2Img.

(** A codec that accepts the payloads starting with [RASTER] and
    writes them back unchanged. *)
Definition Image_open (data : string) : result string :=
  if PyStr.startswith data "RASTER" then Ok data else Raise OSError.

Definition Image_save (img : string) (output_path : Path) : result string :=
  Ok img.

(** A parser that knows the pages used below. *)
Definition find_all_img_src (data : string) : result (list (option string)) :=
  if String.eqb data "<img src='../images/pic.jpg'/>"
  then Ok [Some "../images/pic.jpg"]
  else if String.eqb data "<img src='pic.jpg'/>"
  then Ok [Some "pic.jpg"]
  else Ok [].

Definition folder : Path := ["book_images"; "jung"].

(** A disk holding the output folder of the container [jung.epub]. *)
Definition disk : World :=
  {| dirs := {[ ["book_images"]; folder ]}; files := ∅; saved := [] |}.

Definition pic : EpubItem :=
  mkItem "pic1" "images/pic.jpg" "image/jpeg" (Bytes "RASTER jpeg") ITEM_IMAGE.

Definition thumb : EpubItem :=
  mkItem "pic2" "thumbs/pic.jpg" "image/jpeg" (Bytes "RASTER thumb") ITEM_IMAGE.

Definition page : EpubItem :=
  mkItem "ch1" "text/ch1.xhtml" "application/xhtml+xml"
    (Bytes "<img src='../images/pic.jpg'/>") ITEM_DOCUMENT.

Definition page_short : EpubItem :=
  mkItem "ch2" "ch2.xhtml" "application/xhtml+xml"
    (Bytes "<img src='pic.jpg'/>") ITEM_DOCUMENT.

(** An item declared [image/svg+xml] whose payload the codec accepts. *)
Definition vector : EpubItem :=
  mkItem "v1" "images/v1.svg" "image/svg+xml" (Bytes "RASTER mislabelled")
    ITEM_IMAGE.

(** An item whose media type is spelled in upper case. *)
Definition upper : EpubItem :=
  mkItem "u1" "images/u1.png" "image/PNG" (Bytes "RASTER png") ITEM_IMAGE.

Definition book : EpubBook := mkBook [page; pic].
Definition book_two : EpubBook := mkBook [page_short; pic; thumb].

Definition extract (w : World) (item : EpubItem) (b : EpubBook) : World :=
  extract_images_from_item string Image_open Image_save find_all_img_src
    w item b folder.

(** A library of two containers, one of them unreadable, and the
    output folder the converter has created. *)
Definition input_folder : Path := ["books"].
Definition output_folder : Path := ["book_images"].
Definition jung_epub : Path := ["books"; "jung.epub"].
Definition broken_epub : Path := ["books"; "broken.epub"].

Definition library : World :=
  {| dirs := {[ input_folder; output_folder ]};
     files := {[ jung_epub := "zip" ]} ∪ {[ broken_epub := "junk" ]};
     saved := [] |}.

(** A container parser that reads the files holding [zip]. *)
Definition read_epub (w : World) (epub_path : Path) : result EpubBook :=
  match files w !! epub_path with
  | Some data => if String.eqb data "zip" then Ok book else Raise OSError
  | None => Raise FileNotFoundError
  end.

(** The library once the subfolder of [broken.epub] has been created. *)
Definition library_broken : World :=
  {| dirs := dirs library ∪ {[ output_folder ++ ["broken"] ]};
     files := files library;
     saved := saved library |}.

(** The library once the converter has made sure of its output folder. *)
Definition library_ready : World :=
  {| dirs := dirs library ∪ list_to_set (prefixes output_folder);
     files := files library;
     saved := saved library |}.

Definition process_all_epubs (root : Path) (w : World) : Run :=
  Epub2Img.process_all_epubs string Image_open Image_save find_all_img_src
    read_epub root output_folder w.

Definition main (root : Path) (w : World) : result Run :=
  Epub2Img.main string Image_open Image_save find_all_img_src
    read_epub root output_folder w.

End SampleEpub.

(** ** The run's log file *)

Module Logging.


End Logging.

(** ** More sample data *)

Module SampleMore.

Import Epub2Img.

(** A container holding a style sheet and nothing else. *)
Definition css : EpubItem :=
  mkItem "style" "css/main.css" "text/css" (Bytes "body {}") ITEM_STYLE.

Definition plain_book : EpubBook := mkBook [css].

(** A container parser that finds [plain_book] in every file. *)
Definition read_plain (w : World) (epub_path : Path) : result EpubBook :=
  match files w !! epub_path with
  | Some _ => Ok plain_book
  | None => Raise FileNotFoundError
  end.

(** The library once the subfolder of [jung.epub] has been created. *)
Definition library_jung : World :=
  {| dirs := dirs SampleEpub.library
             ∪ {[ SampleEpub.output_folder ++ ["jung"] ]};
     files := files SampleEpub.library;
     saved := saved SampleEpub.library |}.

(** A disk on which a regular file sits at [text_output/jung]. *)
Definition blocked_disk : World :=
  {| dirs := dirs Sample.images_disk;
     files := <[ ["text_output"; "jung"] := "in the way" ]>
                (files Sample.images_disk);
     saved := saved Sample.images_disk |}.

(** The library with a regular file sitting at [book_images/jung]. *)
Definition squatted_library : World :=
  {| dirs := dirs SampleEpub.library;
     files := <[ SampleEpub.output_folder ++ ["jung"] := "in the way" ]>
                (files SampleEpub.library);
     saved := saved SampleEpub.library |}.

End SampleMore.

(** ** Two runs of the extractor side by side *)

Module Rerun.

(** A first run started on [w] has reached [a] while a second run,
    started on the disk [w1] the first one left, has reached [b] after
    the same steps: the directories agree, and a file of [b] is the one
    of [a] where the first run has written since [w], and the one of
    [w1] elsewhere. *)
Definition in_step (w w1 a b : World) : Prop :=
  dirs b = dirs a
  /\ exists new,
       saved a = saved w ++ new
       /\ (forall p, In p (List.map snd new) -> files b !! p = files a !! p)
       /\ (forall p, ~ In p (List.map snd new) -> files b !! p = files w1 !! p).

End Rerun.

(** * Properties *)

(** ** Strings and paths *)

Section StringFacts.

Lemma append_cons (a : ascii) (s t : string) :
  String a s +:+ t = String a (s +:+ t).
Proof. reflexivity. Qed.

Lemma append_empty_r (s : string) : s +:+ "" = s.
Proof.
  induction s as [|a s IH]; [reflexivity|].
  now rewrite append_cons, IH.
Qed.

Lemma length_append (s t : string) :
  String.length (s +:+ t) = String.length s + String.length t.
Proof.
  induction s as [|a s IH]; [reflexivity|].
  rewrite append_cons; simpl; now rewrite IH.
Qed.

Lemma slice_to_from (i : nat) (s : string) :
  PyStr.slice_to i s +:+ PyStr.slice_from i s = s.
Proof.
  revert s; induction i as [|i IH]; intros [|a s]; simpl; try reflexivity.
  now rewrite append_cons, IH.
Qed.

Lemma length_slice_from (i : nat) (s : string) :
  String.length (PyStr.slice_from i s) = String.length s - i.
Proof.
  revert s; induction i as [|i IH]; intros [|a s]; simpl; try reflexivity.
  apply IH.
Qed.

Lemma slice_to_append (s t : string) :
  PyStr.slice_to (String.length s) (s +:+ t) = s.
Proof.
  induction s as [|a s IH]; [now destruct t|].
  rewrite append_cons; simpl; now rewrite IH.
Qed.

Lemma slice_from_append (s t : string) :
  PyStr.slice_from (String.length s) (s +:+ t) = t.
Proof.
  induction s as [|a s IH]; [reflexivity|].
  rewrite append_cons; simpl; exact IH.
Qed.

Lemma rfind_lt (s : string) (c : ascii) (i : nat) :
  PyStr.rfind s c = Some i -> i < String.length s.
Proof.
  revert i; induction s as [|a s IH]; simpl; intros i H; [discriminate|].
  destruct (PyStr.rfind s c) as [j|].
  - injection H as <-. specialize (IH j eq_refl). lia.
  - destruct (Ascii.eqb a c); [injection H as <-; lia | discriminate].
Qed.

Lemma strip_suffix_append (s sfx : string) :
  Mirror.strip_suffix (s +:+ sfx) sfx = Some s.
Proof.
  unfold Mirror.strip_suffix, PyStr.endswith.
  rewrite length_append.
  replace (String.length s + String.length sfx - String.length sfx)
    with (String.length s) by lia.
  rewrite slice_from_append, slice_to_append, String.eqb_refl.
  replace (Nat.leb _ _) with true; [reflexivity|].
  symmetry; apply Nat.leb_le; lia.
Qed.

(** A name is its stem-part followed by its suffix, where the stem-part
    is what [with_suffix] keeps. *)
Lemma kept_part_suffix (nm : string) :
  (if String.eqb (Pathlib.suffix_of_name nm) "" then nm
   else PyStr.slice_to
          (String.length nm - String.length (Pathlib.suffix_of_name nm)) nm)
  +:+ Pathlib.suffix_of_name nm = nm.
Proof.
  unfold Pathlib.suffix_of_name.
  destruct (PyStr.rfind nm ".") as [i|] eqn:Hr;
    [|exact (append_empty_r nm)].
  destruct (Nat.ltb 0 i && Nat.ltb i (String.length nm - 1)) eqn:Hc;
    [|exact (append_empty_r nm)].
  apply andb_true_iff in Hc as [_ Hi%Nat.ltb_lt].
  destruct (String.eqb_spec (PyStr.slice_from i nm) "") as [He|_].
  - apply (f_equal String.length) in He.
    rewrite length_slice_from in He; simpl in He; lia.
  - rewrite length_slice_from.
    replace (String.length nm - (String.length nm - i)) with i by lia.
    apply slice_to_from.
Qed.

Lemma relative_to_app (root rel : Path) :
  Pathlib.relative_to (root ++ rel) root = Ok rel.
Proof.
  induction root as [|r root IH]; simpl; [reflexivity|].
  now rewrite String.eqb_refl.
Qed.

End StringFacts.

(** ** The OCR pipeline *)

Module Img2TextProps.

Import Img2Text.

Lemma name_app (root rel : Path) :
  rel <> [] -> Pathlib.name (root ++ rel) = Pathlib.name rel.
Proof.
  intros Hrel. unfold Pathlib.name.
  rewrite (app_removelast_last "" Hrel) at 1.
  rewrite app_assoc, last_last.
  reflexivity.
Qed.

Lemma with_suffix_txt (rel : Path) :
  Pathlib.name rel <> "" ->
  Pathlib.with_suffix rel ".txt" =
  Ok (Pathlib.parent rel ++
      [(if String.eqb (Pathlib.suffix_of_name (Pathlib.name rel)) ""
        then Pathlib.name rel
        else PyStr.slice_to
               (String.length (Pathlib.name rel)
                - String.length (Pathlib.suffix_of_name (Pathlib.name rel)))
               (Pathlib.name rel)) +:+ ".txt"]).
Proof.
  intros Hnm. unfold Pathlib.with_suffix.
  change (PyStr.contains ".txt" "/") with false.
  change ((negb (String.eqb ".txt" "") && negb (PyStr.startswith ".txt" "."))
          || String.eqb ".txt" ".") with false.
  cbv iota.
  apply String.eqb_neq in Hnm. rewrite Hnm.
  now destruct (String.eqb (Pathlib.suffix_of_name (Pathlib.name rel)) "").
Qed.

(** C5. The mirrored output path of an image under the scan root obeys
    the round-trip law: the path arithmetic of [create_output_path]
    succeeds, and stripping the output root and the [.txt] extension
    from its result and re-attaching the image's own extension gives
    back the image's path relative to the scan root.  Whatever
    [create_output_path] returns is that path. *)
Theorem create_output_path_round_trip
  (input_root output_root rel : Path) :
  rel <> [] ->
  Pathlib.name rel <> "" ->
  exists o,
    output_path_of input_root output_root (input_root ++ rel) = Ok o
    /\ Mirror.round_trip output_root o (Pathlib.suffix (input_root ++ rel))
       = Some rel
    /\ forall w o' w',
         create_output_path input_root output_root w (input_root ++ rel)
         = Ok (o', w') -> o' = o.
Proof.
  intros Hrel Hnm.
  unfold create_output_path, output_path_of.
  rewrite relative_to_app. cbn [rbind].
  rewrite (with_suffix_txt rel Hnm). cbn [rbind].
  eexists; split; [reflexivity|]. split.
  - unfold Mirror.round_trip, Pathlib.joinpath, Pathlib.suffix.
    rewrite relative_to_app, (name_app _ _ Hrel).
    unfold Pathlib.name, Pathlib.parent.
    rewrite last_last, removelast_last.
    fold (Pathlib.name rel).
    rewrite strip_suffix_append, kept_part_suffix.
    unfold Pathlib.name.
    now rewrite <- (app_removelast_last "" Hrel).
  - intros w o' w' H.
    destruct (mkdir_parents w _); cbn [rbind] in H; congruence.
Qed.

(** An image [book_images/jung/page1.jpg] scanned from [book_images]. *)
Lemma create_output_path_round_trip_witness :
  exists o,
    output_path_of ["book_images"] ["text_output"]
      (["book_images"] ++ ["jung"; "page1.jpg"]) = Ok o
    /\ Mirror.round_trip ["text_output"] o
         (Pathlib.suffix (["book_images"] ++ ["jung"; "page1.jpg"]))
       = Some ["jung"; "page1.jpg"]
    /\ forall w o' w',
         create_output_path ["book_images"] ["text_output"] w
           (["book_images"] ++ ["jung"; "page1.jpg"])
         = Ok (o', w') -> o' = o.
Proof.
  apply (create_output_path_round_trip
           ["book_images"] ["text_output"] ["jung"; "page1.jpg"]).
  - discriminate.
  - vm_compute. discriminate.
Defined.

Lemma append_assoc (a b c : string) : (a +:+ b) +:+ c = a +:+ (b +:+ c).
Proof.
  induction a as [|x a IH]; [reflexivity|].
  now rewrite !append_cons, IH.
Qed.

Lemma mkdir_parents_files (w w' : World) (p : Path) :
  mkdir_parents w p = Ok w' -> files w' = files w /\ saved w' = saved w.
Proof.
  unfold mkdir_parents. intros H.
  destruct (is_file w p); [discriminate|].
  destruct (existsb (is_file w) (prefixes p)); [discriminate|].
  injection H as <-. split; reflexivity.
Qed.

Lemma open_w_lookup (w w0 : World) (p : Path) :
  open_w w p = Ok w0 -> files w0 !! p = Some "".
Proof.
  unfold open_w. intros H.
  destruct (is_dir w p); [discriminate|].
  destruct (is_dir w (Pathlib.parent p)).
  - injection H as <-. cbn. apply lookup_insert_eq.
  - destruct (is_file w (Pathlib.parent p)); discriminate.
Qed.

Lemma write_lookup (w : World) (p : Path) (c s : string) :
  files w !! p = Some c -> files (write w p s) !! p = Some (c +:+ s).
Proof.
  intros H. cbn. rewrite lookup_alter_eq, H. reflexivity.
Qed.

Lemma write_results_lookup (lines : list string) (w : World) (p : Path) (c : string) :
  files w !! p = Some c ->
  files (write_results w p lines) !! p = Some (c +:+ Layout.unlines lines).
Proof.
  unfold write_results.
  revert w c. induction lines as [|line lines IH]; intros w c H;
    cbn [fold_left fold_right Layout.unlines].
  - now rewrite append_empty_r.
  - rewrite (IH _ (c +:+ (line +:+ nl))) by now apply write_lookup.
    now rewrite !append_assoc.
Qed.

Section Ocr.

Variable readtext : Path -> result (list string).
Variable getlogin : result string.
Variable utcnow : Path -> string.
Variables input_root output_root : Path.

Local Abbreviation process_image := (process_image readtext getlogin utcnow).
Local Abbreviation create_output_path := (create_output_path input_root output_root).
Local Abbreviation main_step :=
  (main_step readtext getlogin utcnow input_root output_root).
Local Abbreviation main_loop :=
  (main_loop readtext getlogin utcnow input_root output_root).
Local Abbreviation main := (main readtext getlogin utcnow input_root output_root).

Lemma process_image_engine_raises (w : World) (image_path output_path : Path)
  (e : exn) :
  readtext image_path = Raise e ->
  process_image w image_path output_path = (false, w).
Proof. intros H. unfold Img2Text.process_image. now rewrite H. Qed.

(** C4. When the engine raises on an image, the image's iteration
    writes no file (the files on disk are those before the
    iteration, at the mirrored path as elsewhere), adds exactly one
    to the failed counter, leaves the succeeded counter alone, and
    the loop goes on with the remaining images. *)
Theorem recognition_failure_is_counted
  (st : Run) (image_path output_path : Path) (w1 : World)
  (rest : list Path) (e : exn) :
  readtext image_path = Raise e ->
  create_output_path (world st) image_path = Ok (output_path, w1) ->
  process_image w1 image_path output_path = (false, w1)
  /\ files w1 = files (world st)
  /\ main_step st image_path
     = Ok (mkRun w1 (successful st) (failed st + 1))
  /\ main_loop (image_path :: rest) st
     = main_loop rest (mkRun w1 (successful st) (failed st + 1)).
Proof.
  intros Hraise Hout.
  pose proof (process_image_engine_raises w1 image_path output_path e Hraise)
    as Hproc.
  assert (Hstep : main_step st image_path
                  = Ok (mkRun w1 (successful st) (failed st + 1))).
  { unfold Img2Text.main_step. rewrite Hout. cbn [rbind].
    now rewrite Hproc. }
  repeat split; try assumption.
  - unfold Img2Text.create_output_path in Hout.
    destruct (output_path_of input_root output_root image_path) as [o|];
      cbn [rbind] in Hout; [|discriminate].
    destruct (mkdir_parents (world st) (Pathlib.parent o)) as [w'|] eqn:Hmk;
      cbn [rbind] in Hout; [|discriminate].
    injection Hout as _ <-.
    now apply mkdir_parents_files in Hmk.
  - cbn [Img2Text.main_loop]. now rewrite Hstep.
Qed.

(** C6. For an image the engine reads and whose output file can be
    opened, [process_image] succeeds and the artifact is the four
    header lines (source image name, UTC timestamp, operator, fifty
    dashes), each ended by a newline, then an empty line, then the
    recognised lines in engine order, each ended by a newline. *)
Theorem text_artifact_layout
  (w w0 : World) (image_path output_path : Path)
  (lines : list string) (user : string) :
  readtext image_path = Ok lines ->
  getlogin = Ok user ->
  open_w w output_path = Ok w0 ->
  exists w',
    process_image w image_path output_path = (true, w')
    /\ files w' !! output_path
       = Some (Layout.unlines (header_lines utcnow image_path user)
               +:+ nl +:+ Layout.unlines lines)
    /\ header_lines utcnow image_path user
       = [ "Source Image: " +:+ Pathlib.name image_path;
           "Processing Date (UTC): " +:+ utcnow image_path;
           "Processed by: " +:+ user;
           PyStr.repeat_char "-" 50 ]
    /\ (lines = ["Hello"; "World"] ->
        Layout.unlines lines = "Hello" +:+ nl +:+ "World" +:+ nl).
Proof.
  intros Hread Huser Hopen.
  unfold Img2Text.process_image. rewrite Hread, Hopen, Huser.
  eexists; split; [reflexivity|].
  split; [|split; [reflexivity | now intros ->]].
  apply open_w_lookup in Hopen.
  erewrite write_results_lookup;
    [|do 4 (eapply write_lookup); exact Hopen].
  f_equal.
  unfold header_lines, Layout.unlines; cbn [fold_right].
  rewrite !append_assoc.
  reflexivity.
Qed.

Lemma main_step_counts (st st' : Run) (image_path : Path) :
  main_step st image_path = Ok st' ->
  successful st' + failed st' = successful st + failed st + 1.
Proof.
  unfold Img2Text.main_step. intros H.
  destruct (create_output_path (world st) image_path) as [[o w1]|];
    cbn [rbind] in H; [|discriminate].
  destruct (process_image w1 image_path o) as [[] w2];
    injection H as <-; cbn; lia.
Qed.

Lemma main_loop_counts (image_list : list Path) (st st' : Run) :
  main_loop image_list st = Ok st' ->
  successful st' + failed st'
  = successful st + failed st + length image_list.
Proof.
  revert st. induction image_list as [|p rest IH]; intros st H;
    cbn [Img2Text.main_loop] in H.
  - injection H as <-. cbn. lia.
  - destruct (main_step st p) as [st1|] eqn:Hstep;
      cbn [rbind] in H; [|discriminate].
    apply IH in H. apply main_step_counts in Hstep. cbn [length]. lia.
Qed.

Lemma main_loop_app (done todo : list Path) (st : Run) :
  main_loop (done ++ todo) st
  = let* st1 := main_loop done st in main_loop todo st1.
Proof.
  revert st. induction done as [|p done IH]; intros st;
    cbn [app Img2Text.main_loop rbind]; [reflexivity|].
  destruct (main_step st p) as [st1|]; cbn [rbind]; [apply IH | reflexivity].
Qed.

End Ocr.

(** The engine raises on [a.png]: nothing is written for it. *)
Lemma recognition_failure_is_counted_witness :
  let st := mkRun Sample.images_disk 0 0 in
  process_image Sample.readtext (Ok "ishan") Sample.utcnow
    Sample.mirrored_disk Sample.a_png Sample.a_txt
  = (false, Sample.mirrored_disk)
  /\ files Sample.mirrored_disk = files (world st)
  /\ main_step Sample.readtext (Ok "ishan") Sample.utcnow
       Sample.input_root Sample.output_root st Sample.a_png
     = Ok (mkRun Sample.mirrored_disk (successful st) (failed st + 1))
  /\ main_loop Sample.readtext (Ok "ishan") Sample.utcnow
       Sample.input_root Sample.output_root
       (Sample.a_png :: [Sample.page1_jpg]) st
     = main_loop Sample.readtext (Ok "ishan") Sample.utcnow
         Sample.input_root Sample.output_root [Sample.page1_jpg]
         (mkRun Sample.mirrored_disk (successful st) (failed st + 1)).
Proof.
  intros st.
  apply (recognition_failure_is_counted Sample.readtext (Ok "ishan")
           Sample.utcnow Sample.input_root Sample.output_root
           st Sample.a_png Sample.a_txt Sample.mirrored_disk
           [Sample.page1_jpg] RuntimeError).
  - reflexivity.
  - vm_compute. reflexivity.
Defined.

(** The lines [Hello] and [World] read from [page1.jpg]. *)
Lemma text_artifact_layout_witness :
  exists w',
    process_image Sample.readtext (Ok "ishan") Sample.utcnow
      Sample.mirrored_disk Sample.page1_jpg Sample.page1_txt = (true, w')
    /\ files w' !! Sample.page1_txt
       = Some (Layout.unlines
                 (header_lines Sample.utcnow Sample.page1_jpg "ishan")
               +:+ nl +:+ Layout.unlines ["Hello"; "World"])
    /\ header_lines Sample.utcnow Sample.page1_jpg "ishan"
       = [ "Source Image: " +:+ Pathlib.name Sample.page1_jpg;
           "Processing Date (UTC): " +:+ Sample.utcnow Sample.page1_jpg;
           "Processed by: " +:+ "ishan";
           PyStr.repeat_char "-" 50 ]
    /\ (["Hello"; "World"] = ["Hello"; "World"] ->
        Layout.unlines ["Hello"; "World"] = "Hello" +:+ nl +:+ "World" +:+ nl).
Proof.
  apply (text_artifact_layout Sample.readtext (Ok "ishan") Sample.utcnow
           Sample.mirrored_disk Sample.opened_disk
           Sample.page1_jpg Sample.page1_txt ["Hello"; "World"] "ishan").
  - reflexivity.
  - reflexivity.
  - vm_compute. reflexivity.
Defined.

(** C6, refuted as stated. The engine reads [Hello] and [World] from
    [page1.jpg], but [os.getlogin()] raises: the artifact holds the
    first two header lines only, which is the layout for no operator
    at all, and [process_image] returns [False]. *)
Lemma recognised_image_without_login :
  Sample.readtext Sample.page1_jpg = Ok ["Hello"; "World"]
  /\ exists w',
       process_image Sample.readtext (Raise OSError) Sample.utcnow
         Sample.mirrored_disk Sample.page1_jpg Sample.page1_txt = (false, w')
       /\ files w' !! Sample.page1_txt
          = Some ("Source Image: page1.jpg" +:+ nl
                  +:+ "Processing Date (UTC): 2024-01-01 00:00:00" +:+ nl)
       /\ forall user,
            files w' !! Sample.page1_txt
            <> Some (Layout.unlines
                       (header_lines Sample.utcnow Sample.page1_jpg user)
                     +:+ nl +:+ Layout.unlines ["Hello"; "World"]).
Proof.
  split; [reflexivity|].
  eexists. split; [reflexivity|].
  split; [vm_compute; reflexivity|].
  intros user H. vm_compute in H. discriminate H.
Qed.

End Img2TextProps.

(** ** The extraction pipeline *)

Module Epub2ImgProps.

Import Epub2Img.

Lemma grows_refl (P : string * Path -> Prop) (w : World) : grows P w w.
Proof.
  split; [reflexivity|]. split; [auto|].
  exists []. split; [now rewrite app_nil_r | constructor].
Qed.

Lemma grows_trans (P : string * Path -> Prop) (w1 w2 w3 : World) :
  grows P w1 w2 -> grows P w2 w3 -> grows P w1 w3.
Proof.
  intros (Hd1 & Hf1 & n1 & Hs1 & Hn1) (Hd2 & Hf2 & n2 & Hs2 & Hn2).
  split; [congruence|]. split; [auto|].
  exists (n1 ++ n2). split.
  - now rewrite Hs2, Hs1, app_assoc.
  - apply Forall_app. split; [|assumption].
    eapply Forall_impl; [exact Hn1|].
    intros e [HP He]. auto.
Qed.

Lemma grows_weaken (P Q : string * Path -> Prop) (w w' : World) :
  (forall e, P e -> Q e) -> grows P w w' -> grows Q w w'.
Proof.
  intros HPQ (Hd & Hf & n & Hs & Hn).
  split; [assumption|]. split; [assumption|].
  exists n. split; [assumption|].
  eapply Forall_impl; [exact Hn|]. intros e [HP He]. auto.
Qed.

Lemma grows_fold {A : Type} (P : string * Path -> Prop)
  (f : World -> A -> World) (l : list A) :
  (forall w x, In x l -> grows P w (f w x)) ->
  forall w, grows P w (fold_left f l w).
Proof.
  induction l as [|x l IH]; intros Hf w; cbn [fold_left].
  - apply grows_refl.
  - eapply grows_trans.
    + apply Hf. now left.
    + apply IH. intros w' y Hy. apply Hf. now right.
Qed.

Lemma grows_in (P : string * Path -> Prop) (w w' : World) (e : string * Path) :
  grows P w w' -> In e (saved w) -> In e (saved w').
Proof.
  intros (_ & _ & n & Hs & _) He. rewrite Hs. apply in_or_app. now left.
Qed.

Lemma is_dir_dirs (w w' : World) (p : Path) :
  dirs w' = dirs w -> is_dir w' p = is_dir w p.
Proof. intros H. unfold is_dir. now rewrite H. Qed.

Lemma open_w_ok (w w0 : World) (p : Path) :
  open_w w p = Ok w0 ->
  dirs w0 = dirs w /\ saved w0 = saved w
  /\ files w0 = <[ p := "" ]> (files w).
Proof.
  unfold open_w. intros H.
  destruct (is_dir w p); [discriminate|].
  destruct (is_dir w (Pathlib.parent p)).
  - injection H as <-. repeat split.
  - destruct (is_file w (Pathlib.parent p)); discriminate.
Qed.

Lemma open_w_dirs (w w' : World) (p : Path) :
  dirs w' = dirs w ->
  (exists w0, open_w w p = Ok w0) -> exists w0', open_w w' p = Ok w0'.
Proof.
  intros Hd [w0 H]. unfold open_w in *.
  rewrite !(is_dir_dirs w w') by assumption.
  destruct (is_dir w p); [discriminate|].
  destruct (is_dir w (Pathlib.parent p)); [eauto|].
  destruct (is_file w (Pathlib.parent p)); discriminate.
Qed.

Lemma open_w_same_outcome (w w' : World) (p : Path) :
  dirs w' = dirs w ->
  match open_w w' p with Ok _ => true | Raise _ => false end
  = match open_w w p with Ok _ => true | Raise _ => false end.
Proof.
  intros Hd. unfold open_w.
  rewrite !(is_dir_dirs w w') by assumption.
  destruct (is_dir w p); [reflexivity|].
  destruct (is_dir w (Pathlib.parent p)); [reflexivity|].
  now destruct (is_file w' (Pathlib.parent p)), (is_file w (Pathlib.parent p)).
Qed.

Lemma checked_extension_valid (img_extension : string) :
  PyStr.in_list (PyStr.lower (checked_extension img_extension)) valid_extensions
  = true.
Proof.
  unfold checked_extension.
  destruct (PyStr.in_list (PyStr.lower img_extension) valid_extensions) eqn:H;
    cbn [negb]; [exact H | reflexivity].
Qed.

Section Extraction.

Variable Img : Type.
Variable Image_open : string -> result Img.
Variable Image_save : Img -> Path -> result string.
Variable find_all_img_src : string -> result (list (option string)).

Local Abbreviation save_result := (save_result Img Image_open Image_save).
Local Abbreviation save_image := (save_image Img Image_open Image_save).
Local Abbreviation writable := (writable Img Image_open Image_save).
Local Abbreviation selected := (selected Img Image_open Image_save).
Local Abbreviation extract_direct := (extract_direct Img Image_open Image_save).
Local Abbreviation resolve_one := (resolve_one Img Image_open Image_save).
Local Abbreviation resolve_src := (resolve_src Img Image_open Image_save).
Local Abbreviation extract_img := (extract_img Img Image_open Image_save).
Local Abbreviation extract_images_from_item :=
  (extract_images_from_item Img Image_open Image_save find_all_img_src).

Lemma save_result_ok (w w' : World) (id : string) (c : Content) (path : Path) :
  save_result w id c path = Ok w' ->
  dirs w' = dirs w
  /\ saved w' = saved w ++ [(id, path)]
  /\ is_file w' path = true
  /\ forall p, is_file w p = true -> is_file w' p = true.
Proof.
  unfold Epub2Img.save_result. intros H.
  destruct c as [data|text]; cbn [rbind] in H; [|discriminate].
  destruct (Image_open data) as [img|]; cbn [rbind] in H; [|discriminate].
  destruct (Image_save img path) as [enc|]; cbn [rbind] in H; [|discriminate].
  destruct (open_w w path) as [w0|] eqn:Ho; cbn [rbind] in H; [|discriminate].
  apply open_w_ok in Ho as (Hd & Hs & Hf).
  injection H as <-. cbn [dirs saved files].
  repeat split; try congruence.
  - unfold is_file; cbn [files]. now rewrite lookup_insert_eq.
  - intros p Hp. unfold is_file in *; cbn [files].
    rewrite Hf, !lookup_insert.
    destruct (decide (path = p)); [reflexivity|exact Hp].
Qed.

Lemma save_image_grows (w : World) (id : string) (c : Content) (path : Path) :
  grows (fun e => e = (id, path)) w (save_image w id c path).
Proof.
  unfold Epub2Img.save_image.
  destruct (save_result w id c path) as [w'|] eqn:H; [|apply grows_refl].
  apply save_result_ok in H as (Hd & Hs & Hp & Hf).
  split; [assumption|]. split; [assumption|].
  exists [(id, path)]. split; [assumption|].
  constructor; [split; [reflexivity | exact Hp] | constructor].
Qed.

Lemma writable_dirs (w w' : World) (it : EpubItem) (folder : Path) :
  dirs w' = dirs w -> writable w' it folder = writable w it folder.
Proof.
  intros Hd. unfold Epub2Img.writable, Epub2Img.save_result.
  destruct (content it) as [data|text]; cbn [rbind]; [|reflexivity].
  destruct (Image_open data) as [img|]; cbn [rbind]; [|reflexivity].
  destruct (Image_save img (target folder it)) as [enc|]; cbn [rbind];
    [|reflexivity].
  pose proof (open_w_same_outcome w w' (target folder it) Hd) as Ho.
  destruct (open_w w' (target folder it)), (open_w w (target folder it));
    cbn [rbind]; congruence.
Qed.

Lemma resolve_one_saved (w0 w : World) (src : string) (it : EpubItem)
  (folder : Path) :
  dirs w = dirs w0 ->
  dirs (resolve_one w src it folder) = dirs w0
  /\ saved (resolve_one w src it folder)
     = saved w ++ (if selected w0 src folder it
                   then [(item_id it, target folder it)] else []).
Proof.
  intros Hd. unfold Epub2Img.resolve_one, Epub2Img.selected.
  rewrite <- (writable_dirs w0 w it folder Hd).
  destruct (PyStr.contains (file_name it) src); cbn [andb];
    [|now rewrite app_nil_r].
  destruct (String.eqb (media_type it) "image/svg+xml"); cbn [andb negb];
    [now rewrite app_nil_r|].
  fold (target folder it).
  unfold Epub2Img.writable, Epub2Img.save_image.
  destruct (save_result w (item_id it) (content it) (target folder it))
    as [w'|] eqn:H; [|now rewrite app_nil_r].
  apply save_result_ok in H as (Hd' & Hs & _ & _).
  split; congruence.
Qed.

Lemma resolve_src_saved (w0 : World) (src : string) (folder : Path)
  (image_items : list EpubItem) (w : World) :
  dirs w = dirs w0 ->
  saved (resolve_src w src image_items folder)
  = saved w ++ List.map (fun it => (item_id it, target folder it))
                 (List.filter (selected w0 src folder) image_items).
Proof.
  unfold Epub2Img.resolve_src.
  revert w. induction image_items as [|it rest IH]; intros w Hd;
    cbn [fold_left List.filter].
  - now rewrite app_nil_r.
  - destruct (resolve_one_saved w0 w src it folder Hd) as [Hd1 Hs1].
    rewrite (IH _ Hd1), Hs1.
    destruct (selected w0 src folder it); cbn [List.map].
    + now rewrite <- app_assoc.
    + now rewrite app_nil_r.
Qed.

(** C1, as the code has it. For a cleaned [src], the loop over the
    image items saves every item, in container order, whose file
    name contains the [src], whose media type is not
    [image/svg+xml] and whose payload decodes and can be written:
    one file per such item, not only the first. *)
Theorem resolve_src_saves_every_match
  (w : World) (src : string) (image_items : list EpubItem) (folder : Path) :
  saved (resolve_src w src image_items folder)
  = saved w ++ List.map (fun it => (item_id it, target folder it))
                 (List.filter (selected w src folder) image_items).
Proof. now apply resolve_src_saved. Qed.

Lemma resolve_one_grows (w : World) (src : string) (it : EpubItem)
  (folder : Path) :
  grows (named_after folder [it]) w (resolve_one w src it folder).
Proof.
  unfold Epub2Img.resolve_one.
  destruct (PyStr.contains (file_name it) src); [|apply grows_refl].
  destruct (String.eqb (media_type it) "image/svg+xml"); [apply grows_refl|].
  eapply grows_weaken; [|apply save_image_grows].
  intros e ->. exists it. split; [now left | reflexivity].
Qed.

Lemma named_after_incl (folder : Path) (l l' : list EpubItem)
  (e : string * Path) :
  (forall it, In it l -> In it l') ->
  named_after folder l e -> named_after folder l' e.
Proof. intros Hl (it & Hit & He). exists it. auto. Qed.

Lemma resolve_src_grows (w : World) (src : string)
  (image_items : list EpubItem) (folder : Path) :
  grows (named_after folder image_items) w
    (resolve_src w src image_items folder).
Proof.
  unfold Epub2Img.resolve_src. apply grows_fold.
  intros w' it Hit.
  eapply grows_weaken; [|apply resolve_one_grows].
  intros e. apply named_after_incl.
  intros it' [<-|[]]. exact Hit.
Qed.

Lemma extract_img_grows (w : World) (img : option string) (book : EpubBook)
  (folder : Path) :
  grows (named_after folder (get_items book)) w
    (extract_img w img book folder).
Proof.
  unfold Epub2Img.extract_img.
  destruct img as [src|]; [|apply grows_refl].
  destruct (String.eqb src ""); [apply grows_refl|].
  destruct (PyStr.startswith src "http"); [apply grows_refl|].
  eapply grows_weaken; [|apply resolve_src_grows].
  intros e. apply named_after_incl.
  intros it Hit. unfold get_items_of_type in Hit.
  now apply List.filter_In in Hit.
Qed.

Lemma extract_images_from_item_grows (w : World) (item : EpubItem)
  (book : EpubBook) (folder : Path) :
  grows (named_after folder (item :: get_items book)) w
    (extract_images_from_item w item book folder).
Proof.
  unfold Epub2Img.extract_images_from_item.
  destruct (content item) as [data|text] eqn:Hc; [|apply grows_refl].
  destruct (PyStr.startswith (media_type item) "image/").
  - unfold Epub2Img.extract_direct.
    destruct (String.eqb _ "svg"); [apply grows_refl|].
    eapply grows_weaken; [|apply save_image_grows].
    intros e ->. exists item. split; [now left | reflexivity].
  - destruct (String.eqb (media_type item) "application/xhtml+xml");
      [|apply grows_refl].
    destruct (find_all_img_src data) as [images|]; [|apply grows_refl].
    apply grows_fold. intros w' img _.
    eapply grows_weaken; [|apply extract_img_grows].
    intros e. apply named_after_incl. intros it Hit. now right.
Qed.

(** C8, as the code has it. Every file the extractor writes for an
    item, direct or resolved from markup, is named
    [<resourceId>.<ext>], where [<ext>] is the media-type suffix when
    the lower-cased suffix is one of jpeg, jpg, png, gif, and [jpg]
    otherwise; so the lower-cased extension of every written file is
    one of those four. *)
Theorem written_names_have_checked_extension
  (w : World) (item : EpubItem) (book : EpubBook) (folder : Path) :
  exists new,
    saved (extract_images_from_item w item book folder) = saved w ++ new
    /\ forall id path, In (id, path) new ->
         exists it ext,
           (it = item \/ In it (get_items book))
           /\ id = item_id it
           /\ ext = (let sfx := PyStr.split_last (media_type it) "/" in
                     if PyStr.in_list (PyStr.lower sfx) valid_extensions
                     then sfx else "jpg")
           /\ path = folder ++ [id +:+ "." +:+ ext]
           /\ PyStr.in_list (PyStr.lower ext) valid_extensions = true.
Proof.
  destruct (extract_images_from_item_grows w item book folder)
    as (_ & _ & new & Hs & Hnew).
  exists new. split; [exact Hs|].
  intros id path Hin.
  rewrite List.Forall_forall in Hnew.
  destruct (Hnew _ Hin) as [(it & Hit & He) _].
  injection He as -> ->.
  exists it, (checked_extension (PyStr.split_last (media_type it) "/")).
  split; [destruct Hit as [<-|Hit]; auto|].
  split; [reflexivity|]. split.
  - unfold checked_extension. cbv zeta.
    now destruct (PyStr.in_list _ valid_extensions).
  - split; [reflexivity | apply checked_extension_valid].
Qed.

(** C7, as the code has it. A markup page with an [img] whose [src]
    is [../images/pic.jpg], in a container with an image item of
    file name [images/pic.jpg] and media type [image/jpeg] whose
    payload decodes: the cleaned [src] is [images/pic.jpg], the
    containment test succeeds, and the file written is
    [<picResourceId>.jpeg] under the container's folder. *)
Theorem markup_reference_saved_as_jpeg
  (w : World) (page pic : EpubItem) (book : EpubBook) (folder : Path)
  (data : string) (images : list (option string)) :
  content page = Bytes data ->
  media_type page = "application/xhtml+xml" ->
  find_all_img_src data = Ok images ->
  In (Some "../images/pic.jpg") images ->
  In pic (get_items book) ->
  get_type pic = ITEM_IMAGE ->
  file_name pic = "images/pic.jpg" ->
  media_type pic = "image/jpeg" ->
  writable w pic folder = true ->
  clean_src "../images/pic.jpg" = "images/pic.jpg"
  /\ PyStr.contains (file_name pic) (clean_src "../images/pic.jpg") = true
  /\ In (item_id pic, folder ++ [item_id pic +:+ ".jpeg"])
       (saved (extract_images_from_item w page book folder))
  /\ is_file (extract_images_from_item w page book folder)
       (folder ++ [item_id pic +:+ ".jpeg"]) = true.
Proof.
  intros Hc Hmt Hfind Himg Hpic Hty Hfn Hpmt Hwr.
  split; [reflexivity|]. split; [now rewrite Hfn|].
  assert (Htarget : target folder pic = folder ++ [item_id pic +:+ ".jpeg"]).
  { unfold target. now rewrite Hpmt. }
  unfold Epub2Img.extract_images_from_item.
  rewrite Hc, Hmt, Hfind.
  change (PyStr.startswith "application/xhtml+xml" "image/") with false.
  change (String.eqb "application/xhtml+xml" "application/xhtml+xml") with true.
  cbv iota.
  apply List.in_split in Himg as (before & after & ->).
  rewrite fold_left_app. cbn [fold_left].
  set (step := fun w img => extract_img w img book folder).
  set (w1 := fold_left step before w).
  assert (G1 : grows (named_after folder (get_items book)) w w1).
  { apply grows_fold. intros w' img _. apply extract_img_grows. }
  set (items := get_items_of_type book ITEM_IMAGE).
  set (w2 := step w1 (Some "../images/pic.jpg")).
  assert (Hw2 : w2 = resolve_src w1 "images/pic.jpg" items folder)
    by reflexivity.
  assert (G3 : grows (named_after folder (get_items book)) w2
                 (fold_left step after w2)).
  { apply grows_fold. intros w' img _. apply extract_img_grows. }
  assert (Hsel : In pic (List.filter (selected w1 "images/pic.jpg" folder) items)).
  { apply List.filter_In. split.
    - apply List.filter_In. split; [exact Hpic | now rewrite Hty].
    - unfold Epub2Img.selected.
      rewrite Hfn, Hpmt, (writable_dirs w w1) by apply G1.
      now rewrite Hwr. }
  pose proof (resolve_src_saved w1 "images/pic.jpg" folder items w1 eq_refl)
    as Hsaved.
  destruct (resolve_src_grows w1 "images/pic.jpg" items folder)
    as (_ & _ & new & Hnew & Hfiles).
  rewrite Hsaved in Hnew. apply app_inv_head in Hnew. subst new.
  assert (Hentry : In (item_id pic, target folder pic)
                     (List.map (fun it => (item_id it, target folder it))
                        (List.filter (selected w1 "images/pic.jpg" folder)
                           items))).
  { apply (List.in_map (fun it => (item_id it, target folder it))), Hsel. }
  split.
  - apply (grows_in _ _ _ _ G3).
    rewrite Hw2, Hsaved, <- Htarget.
    apply List.in_or_app. now right.
  - destruct G3 as (_ & Hkeep & _). apply Hkeep.
    rewrite List.Forall_forall in Hfiles.
    destruct (Hfiles _ Hentry) as [_ Hfile].
    rewrite Hw2, <- Htarget. exact Hfile.
Qed.

(** No item of media type [image/svg+xml] is among those a [src]
    resolves to. *)
Lemma selected_not_svg (w : World) (src : string) (folder : Path)
  (it : EpubItem) :
  selected w src folder it = true -> media_type it <> "image/svg+xml".
Proof.
  unfold Epub2Img.selected. intros H Hsvg. rewrite Hsvg in H.
  change (String.eqb "image/svg+xml" "image/svg+xml") with true in H.
  cbn [negb] in H. now rewrite andb_false_r in H.
Qed.

End Extraction.

(** C1, refuted as stated. The page [ch2] refers to [pic.jpg]; the
    file names of [pic1] and of the later [pic2] both contain it, and
    both are written: it is not so that only the first match is. *)
Lemma later_match_is_written_too :
  let w' := SampleEpub.extract SampleEpub.disk SampleEpub.page_short
              SampleEpub.book_two in
  clean_src "pic.jpg" = "pic.jpg"
  /\ PyStr.contains (file_name SampleEpub.pic) "pic.jpg" = true
  /\ PyStr.contains (file_name SampleEpub.thumb) "pic.jpg" = true
  /\ saved w' = [ ("pic1", SampleEpub.folder ++ ["pic1.jpeg"]);
                  ("pic2", SampleEpub.folder ++ ["pic2.jpeg"]) ]
  /\ ~ (forall id path, In (id, path) (saved w') -> id = item_id SampleEpub.pic).
Proof.
  cbv zeta.
  assert (Hs : saved (SampleEpub.extract SampleEpub.disk SampleEpub.page_short
                        SampleEpub.book_two)
               = [ ("pic1", SampleEpub.folder ++ ["pic1.jpeg"]);
                   ("pic2", SampleEpub.folder ++ ["pic2.jpeg"]) ])
    by (vm_compute; reflexivity).
  repeat split; try (vm_compute; reflexivity).
  intros H.
  specialize (H "pic2" (SampleEpub.folder ++ ["pic2.jpeg"])).
  rewrite Hs in H.
  assert (Hid : "pic2" = item_id SampleEpub.pic) by (apply H; right; now left).
  discriminate Hid.
Qed.

(** C2 at its failing input. An item declared [image/svg+xml] whose
    payload the codec accepts, met as a direct image item: the test on
    line 39 compares the suffix [svg+xml] with [svg], does not fire,
    and the item is written as [v1.jpg]. *)
Lemma svg_direct_item_is_written :
  let w' := SampleEpub.extract SampleEpub.disk SampleEpub.vector SampleEpub.book in
  media_type SampleEpub.vector = "image/svg+xml"
  /\ PyStr.split_last (media_type SampleEpub.vector) "/" = "svg+xml"
  /\ saved w' = [ ("v1", SampleEpub.folder ++ ["v1.jpg"]) ]
  /\ files w' !! (SampleEpub.folder ++ ["v1.jpg"]) = Some "RASTER mislabelled".
Proof. cbv zeta. repeat split; vm_compute; reflexivity. Qed.

(** C7, refuted as stated. In the scenario the cleaning and the
    containment test are as said, but the file written is [pic1.jpeg];
    no [pic1.jpg] is written. *)
Lemma pic_is_not_saved_as_jpg :
  let w' := SampleEpub.extract SampleEpub.disk SampleEpub.page SampleEpub.book in
  clean_src "../images/pic.jpg" = "images/pic.jpg"
  /\ PyStr.contains (file_name SampleEpub.pic) "images/pic.jpg" = true
  /\ saved w' = [ ("pic1", SampleEpub.folder ++ ["pic1.jpeg"]) ]
  /\ ~ In ("pic1", SampleEpub.folder ++ ["pic1.jpg"]) (saved w')
  /\ is_file w' (SampleEpub.folder ++ ["pic1.jpg"]) = false.
Proof.
  cbv zeta.
  assert (Hs : saved (SampleEpub.extract SampleEpub.disk SampleEpub.page
                        SampleEpub.book)
               = [ ("pic1", SampleEpub.folder ++ ["pic1.jpeg"]) ])
    by (vm_compute; reflexivity).
  repeat split; try (vm_compute; reflexivity).
  rewrite Hs. intros [H|[]]. discriminate H.
Qed.

Lemma markup_reference_saved_as_jpeg_witness :
  clean_src "../images/pic.jpg" = "images/pic.jpg"
  /\ PyStr.contains (file_name SampleEpub.pic) (clean_src "../images/pic.jpg")
     = true
  /\ In (item_id SampleEpub.pic,
         SampleEpub.folder ++ [item_id SampleEpub.pic +:+ ".jpeg"])
       (saved (SampleEpub.extract SampleEpub.disk SampleEpub.page SampleEpub.book))
  /\ is_file (SampleEpub.extract SampleEpub.disk SampleEpub.page SampleEpub.book)
       (SampleEpub.folder ++ [item_id SampleEpub.pic +:+ ".jpeg"]) = true.
Proof.
  apply (markup_reference_saved_as_jpeg string SampleEpub.Image_open
           SampleEpub.Image_save SampleEpub.find_all_img_src
           SampleEpub.disk SampleEpub.page SampleEpub.pic SampleEpub.book
           SampleEpub.folder "<img src='../images/pic.jpg'/>"
           [Some "../images/pic.jpg"]).
  - reflexivity.
  - reflexivity.
  - reflexivity.
  - simpl. left. reflexivity.
  - simpl. right. left. reflexivity.
  - reflexivity.
  - reflexivity.
  - reflexivity.
  - vm_compute. reflexivity.
Defined.

(** C8, refuted as stated. For the media type [image/PNG] the suffix
    [PNG] is not one of jpeg, jpg, png, gif, yet the file is written
    as [u1.PNG], not as [u1.jpg]. *)
Lemma upper_case_suffix_is_kept :
  let w' := SampleEpub.extract SampleEpub.disk SampleEpub.upper SampleEpub.book in
  PyStr.split_last (media_type SampleEpub.upper) "/" = "PNG"
  /\ PyStr.in_list "PNG" valid_extensions = false
  /\ saved w' = [ ("u1", SampleEpub.folder ++ ["u1" +:+ "." +:+ "PNG"]) ]
  /\ ~ In ("u1", SampleEpub.folder ++ ["u1" +:+ "." +:+ "jpg"]) (saved w').
Proof.
  cbv zeta.
  assert (Hs : saved (SampleEpub.extract SampleEpub.disk SampleEpub.upper
                        SampleEpub.book)
               = [ ("u1", SampleEpub.folder ++ ["u1" +:+ "." +:+ "PNG"]) ])
    by (vm_compute; reflexivity).
  repeat split; try (vm_compute; reflexivity).
  rewrite Hs. intros [H|[]]. discriminate H.
Qed.


Lemma mkdir_ok_is_dir (w w1 : World) (p : Path) :
  mkdir w p = Ok w1 -> is_dir w1 p = true.
Proof.
  unfold mkdir. intros H.
  destruct (is_dir w p) eqn:Hd; [now injection H as <-|].
  destruct (is_file w p); [discriminate|].
  destruct (is_dir w (Pathlib.parent p)).
  - injection H as <-. unfold is_dir; cbn [dirs].
    apply bool_decide_eq_true. right. set_solver.
  - destruct (is_file w (Pathlib.parent p)); discriminate.
Qed.

Section Batch.

Variable Img : Type.
Variable Image_open : string -> result Img.
Variable Image_save : Img -> Path -> result string.
Variable find_all_img_src : string -> result (list (option string)).
Variable read_epub : World -> Path -> result EpubBook.
Variables input_folder output_folder : Path.

Local Abbreviation extract_images_from_item :=
  (extract_images_from_item Img Image_open Image_save find_all_img_src).
Local Abbreviation process_epub :=
  (process_epub Img Image_open Image_save find_all_img_src read_epub
     output_folder).
Local Abbreviation step :=
  (step Img Image_open Image_save find_all_img_src read_epub output_folder).
Local Abbreviation process_epubs :=
  (process_epubs Img Image_open Image_save find_all_img_src read_epub
     output_folder).
Local Abbreviation process_all_epubs :=
  (process_all_epubs Img Image_open Image_save find_all_img_src read_epub
     input_folder output_folder).

Lemma extract_all_dirs (book : EpubBook) (folder : Path)
  (items : list EpubItem) (w : World) :
  dirs (fold_left (fun w item => extract_images_from_item w item book folder)
          items w) = dirs w.
Proof.
  apply (grows_fold (fun _ => True)). intros w' item _.
  eapply grows_weaken;
    [|apply (extract_images_from_item_grows Img Image_open Image_save)].
  auto.
Qed.

Lemma process_epub_mkdir_raises (w : World) (epub_path : Path) (e : exn) :
  mkdir w (Pathlib.joinpath output_folder [Pathlib.stem epub_path]) = Raise e ->
  process_epub w epub_path = (false, w).
Proof. intros H. unfold Epub2Img.process_epub. now rewrite H. Qed.

(** C10. Whenever a container gets opened (the [mkdir] of its
    subfolder did not raise), the parser runs on a disk on which the
    subfolder, named by the container's stem, is already a
    directory; the subfolder is a directory when [process_epub]
    returns; and when opening or parsing raises, [process_epub]
    returns [False] on that disk, so the container is counted as
    failed. *)
Theorem subfolder_exists_before_open
  (w w1 : World) (epub_path : Path) :
  mkdir w (Pathlib.joinpath output_folder [Pathlib.stem epub_path]) = Ok w1 ->
  is_dir w1 (Pathlib.joinpath output_folder [Pathlib.stem epub_path]) = true
  /\ is_dir (snd (process_epub w epub_path))
       (Pathlib.joinpath output_folder [Pathlib.stem epub_path]) = true
  /\ (forall e, read_epub w1 epub_path = Raise e ->
         process_epub w epub_path = (false, w1)
         /\ step (mkRun w 0 0) epub_path = mkRun w1 0 1).
Proof.
  intros Hmk.
  pose proof (mkdir_ok_is_dir _ _ _ Hmk) as Hdir.
  split; [exact Hdir|].
  unfold Epub2Img.step, Epub2Img.process_epub. cbn [world successful failed].
  rewrite Hmk.
  destruct (read_epub w1 epub_path) as [book|e'] eqn:Hread; cbn [snd].
  - split; [|discriminate].
    unfold is_dir in *. now rewrite extract_all_dirs.
  - split; [exact Hdir|]. intros e _. split; reflexivity.
Qed.

Lemma step_counts (st : Run) (epub_path : Path) :
  successful (step st epub_path) + failed (step st epub_path)
  = successful st + failed st + 1.
Proof.
  unfold Epub2Img.step.
  destruct (process_epub (world st) epub_path) as [[] w']; cbn; lia.
Qed.

Lemma process_epubs_counts (epub_files : list Path) (st : Run) :
  successful (process_epubs epub_files st) + failed (process_epubs epub_files st)
  = successful st + failed st + length epub_files.
Proof.
  unfold Epub2Img.process_epubs.
  revert st. induction epub_files as [|p rest IH]; intros st;
    cbn [fold_left length]; [lia|].
  rewrite IH, step_counts. lia.
Qed.

Lemma process_epubs_app (done todo : list Path) (st : Run) :
  process_epubs (done ++ todo) st = process_epubs todo (process_epubs done st).
Proof. unfold Epub2Img.process_epubs. apply fold_left_app. Qed.

End Batch.

(** The unreadable container [broken.epub]. *)
Lemma subfolder_exists_before_open_witness :
  is_dir SampleEpub.library_broken
    (Pathlib.joinpath SampleEpub.output_folder
       [Pathlib.stem SampleEpub.broken_epub]) = true
  /\ is_dir
       (snd (process_epub string SampleEpub.Image_open SampleEpub.Image_save
               SampleEpub.find_all_img_src SampleEpub.read_epub
               SampleEpub.output_folder SampleEpub.library
               SampleEpub.broken_epub))
       (Pathlib.joinpath SampleEpub.output_folder
          [Pathlib.stem SampleEpub.broken_epub]) = true
  /\ (forall e,
        SampleEpub.read_epub SampleEpub.library_broken SampleEpub.broken_epub
        = Raise e ->
        process_epub string SampleEpub.Image_open SampleEpub.Image_save
          SampleEpub.find_all_img_src SampleEpub.read_epub
          SampleEpub.output_folder SampleEpub.library SampleEpub.broken_epub
        = (false, SampleEpub.library_broken)
        /\ step string SampleEpub.Image_open SampleEpub.Image_save
             SampleEpub.find_all_img_src SampleEpub.read_epub
             SampleEpub.output_folder (mkRun SampleEpub.library 0 0)
             SampleEpub.broken_epub
           = mkRun SampleEpub.library_broken 0 1).
Proof.
  apply (subfolder_exists_before_open string SampleEpub.Image_open
           SampleEpub.Image_save SampleEpub.find_all_img_src
           SampleEpub.read_epub SampleEpub.output_folder
           SampleEpub.library SampleEpub.library_broken
           SampleEpub.broken_epub).
  vm_compute. reflexivity.
Defined.

End Epub2ImgProps.

(** ** Both pipelines *)

Module Pipelines.

Section Runs.

Variable Img : Type.
Variable Image_open : string -> result Img.
Variable Image_save : Img -> Path -> result string.
Variable find_all_img_src : string -> result (list (option string)).
Variable read_epub : World -> Path -> result Epub2Img.EpubBook.
Variable readtext : Path -> result (list string).
Variable getlogin : result string.
Variable utcnow : Path -> string.

Local Abbreviation process_epubs out :=
  (Epub2Img.process_epubs Img Image_open Image_save find_all_img_src
     read_epub out).
Local Abbreviation process_all_epubs root out :=
  (Epub2Img.process_all_epubs Img Image_open Image_save find_all_img_src
     read_epub root out).
Local Abbreviation epub_main root out :=
  (Epub2Img.main Img Image_open Image_save find_all_img_src
     read_epub root out).
Local Abbreviation main_loop root out :=
  (Img2Text.main_loop readtext getlogin utcnow root out).
Local Abbreviation ocr_main root out :=
  (Img2Text.main readtext getlogin utcnow root out).

Lemma rglob_missing_root (w : World) (root : Path) (pattern : string) :
  is_dir w root = false -> rglob w root pattern = [].
Proof. intros H. unfold rglob. now rewrite H. Qed.

Lemma rglob_spec (w : World) (root : Path) (pattern : string) (p : Path) :
  In p (rglob w root pattern)
  <-> is_dir w root = true
      /\ In p (entries w)
      /\ is_under root p = true
      /\ fnmatch pattern (Pathlib.name p) = true.
Proof.
  unfold rglob. destruct (is_dir w root).
  - rewrite List.filter_In, andb_true_iff. tauto.
  - split; [intros [] | intros [H _]; discriminate H].
Qed.

(** C3, as the code has it. The scanner has no existence test and
    never fails: when the input root is not a directory at the time
    of the scan it returns the empty sequence, so each run processes
    no unit and ends normally with both counters at 0; and in every
    case what it returns is the finite list of the entries under the
    root whose name matches the pattern. *)
Theorem missing_root_gives_empty_run
  (root out : Path) (w w0 : World) :
  mkdir_parents w out = Ok w0 ->
  is_dir w0 root = false ->
  Epub2Img.find_epubs root w0 = []
  /\ epub_main root out w = Ok (Epub2Img.mkRun w0 0 0)
  /\ Img2Text.find_images root w0 = []
  /\ ocr_main root out w = Ok (Img2Text.mkRun w0 0 0)
  /\ (forall w' p,
        In p (Epub2Img.find_epubs root w')
        <-> is_dir w' root = true
            /\ In p (entries w')
            /\ is_under root p = true
            /\ fnmatch "*.epub" (Pathlib.name p) = true).
Proof.
  intros Hmk Hroot.
  pose proof (rglob_missing_root w0 root "*.epub" Hroot) as Hepub.
  pose proof (rglob_missing_root w0 root "*" Hroot) as Himg.
  split; [exact Hepub|]. split.
  { unfold Epub2Img.main, Epub2Img.process_all_epubs, Epub2Img.find_epubs.
    rewrite Hmk. cbn [rbind]. now rewrite Hepub. }
  split.
  { unfold Img2Text.find_images. now rewrite Himg. }
  split.
  { unfold Img2Text.main, Img2Text.find_images.
    rewrite Hmk. cbn [rbind]. now rewrite Himg. }
  intros w' p. apply rglob_spec.
Qed.

(** C9. In the extraction pipeline the loop always finishes, and
    after any number of containers the two counters add up to the
    number of containers processed so far, hence to the number the
    scanner found at the end. In the OCR pipeline the same holds
    whenever the run returns: after each image the counters add up
    to the number of images processed so far, and at the end to the
    number the scanner found. *)
Theorem counters_account_for_every_unit
  (root out iroot iout : Path)
  (w : World) (done todo : list Path)
  (wi w0 : World) (idone itodo : list Path) (fin : Img2Text.Run) :
  Epub2Img.find_epubs root w = done ++ todo ->
  mkdir_parents wi iout = Ok w0 ->
  Img2Text.find_images iroot w0 = idone ++ itodo ->
  ocr_main iroot iout wi = Ok fin ->
  (let st := process_epubs out done (Epub2Img.mkRun w 0 0) in
   Epub2Img.successful st + Epub2Img.failed st = length done
   /\ process_all_epubs root out w = process_epubs out todo st
   /\ Epub2Img.successful (process_all_epubs root out w)
      + Epub2Img.failed (process_all_epubs root out w)
      = length (Epub2Img.find_epubs root w))
  /\ (exists st1,
        main_loop iroot iout idone (Img2Text.mkRun w0 0 0) = Ok st1
        /\ Img2Text.successful st1 + Img2Text.failed st1 = length idone
        /\ main_loop iroot iout itodo st1 = Ok fin
        /\ Img2Text.successful fin + Img2Text.failed fin
           = length (Img2Text.find_images iroot w0)).
Proof.
  intros Hfound Hmk Hifound Hmain. split.
  - cbv zeta. split; [|split].
    + rewrite Epub2ImgProps.process_epubs_counts. cbn. lia.
    + unfold Epub2Img.process_all_epubs. rewrite Hfound.
      apply Epub2ImgProps.process_epubs_app.
    + unfold Epub2Img.process_all_epubs.
      rewrite Epub2ImgProps.process_epubs_counts. cbn. lia.
  - unfold Img2Text.main in Hmain. rewrite Hmk in Hmain.
    cbn [rbind] in Hmain. rewrite Hifound in Hmain |- *.
    rewrite Img2TextProps.main_loop_app in Hmain.
    destruct (main_loop iroot iout idone (Img2Text.mkRun w0 0 0))
      as [st1|] eqn:H1; cbn [rbind] in Hmain; [|discriminate].
    exists st1. split; [reflexivity|].
    pose proof (Img2TextProps.main_loop_counts _ _ _ _ _ _ _ _ H1) as C1.
    pose proof (Img2TextProps.main_loop_counts _ _ _ _ _ _ _ _ Hmain) as C2.
    cbn in C1. rewrite length_app.
    split; [lia|]. split; [exact Hmain | lia].
Qed.

End Runs.

(** C3, refuted as stated. The root [missing] does not exist on the
    sample disks, yet neither run fails: both return normally, with
    no unit processed. *)
Lemma missing_root_raises_nothing :
  is_dir SampleEpub.library_ready ["missing"] = false
  /\ is_dir Sample.ready_disk ["missing"] = false
  /\ SampleEpub.main ["missing"] SampleEpub.library
     = Ok (Epub2Img.mkRun SampleEpub.library_ready 0 0)
  /\ Sample.main ["missing"] Sample.images_disk
     = Ok (Img2Text.mkRun Sample.ready_disk 0 0)
  /\ SampleEpub.main ["missing"] SampleEpub.library <> Raise FileNotFoundError
  /\ Sample.main ["missing"] Sample.images_disk <> Raise FileNotFoundError.
Proof.
  assert (He : SampleEpub.main ["missing"] SampleEpub.library
               = Ok (Epub2Img.mkRun SampleEpub.library_ready 0 0))
    by (vm_compute; reflexivity).
  assert (Hi : Sample.main ["missing"] Sample.images_disk
               = Ok (Img2Text.mkRun Sample.ready_disk 0 0))
    by (vm_compute; reflexivity).
  repeat split; try (vm_compute; reflexivity); try assumption.
  - rewrite He. discriminate.
  - rewrite Hi. discriminate.
Qed.

Lemma missing_root_gives_empty_run_witness :
  Epub2Img.find_epubs ["missing"] SampleEpub.library_ready = []
  /\ SampleEpub.main ["missing"] SampleEpub.library
     = Ok (Epub2Img.mkRun SampleEpub.library_ready 0 0)
  /\ Img2Text.find_images ["missing"] SampleEpub.library_ready = []
  /\ Img2Text.main Sample.readtext (Ok "ishan") Sample.utcnow
       ["missing"] SampleEpub.output_folder SampleEpub.library
     = Ok (Img2Text.mkRun SampleEpub.library_ready 0 0)
  /\ (forall w' p,
        In p (Epub2Img.find_epubs ["missing"] w')
        <-> is_dir w' ["missing"] = true
            /\ In p (entries w')
            /\ is_under ["missing"] p = true
            /\ fnmatch "*.epub" (Pathlib.name p) = true).
Proof.
  apply (missing_root_gives_empty_run string SampleEpub.Image_open
           SampleEpub.Image_save SampleEpub.find_all_img_src
           SampleEpub.read_epub Sample.readtext (Ok "ishan") Sample.utcnow
           ["missing"] SampleEpub.output_folder
           SampleEpub.library SampleEpub.library_ready).
  - vm_compute. reflexivity.
  - vm_compute. reflexivity.
Defined.

(** The library of two containers and the disk of two images. *)
Lemma counters_account_for_every_unit_witness :
  (let st := Epub2Img.process_epubs string SampleEpub.Image_open
               SampleEpub.Image_save SampleEpub.find_all_img_src
               SampleEpub.read_epub SampleEpub.output_folder
               [SampleEpub.broken_epub]
               (Epub2Img.mkRun SampleEpub.library 0 0) in
   Epub2Img.successful st + Epub2Img.failed st
   = length [SampleEpub.broken_epub]
   /\ SampleEpub.process_all_epubs SampleEpub.input_folder SampleEpub.library
      = Epub2Img.process_epubs string SampleEpub.Image_open
          SampleEpub.Image_save SampleEpub.find_all_img_src
          SampleEpub.read_epub SampleEpub.output_folder
          [SampleEpub.jung_epub] st
   /\ Epub2Img.successful
        (SampleEpub.process_all_epubs SampleEpub.input_folder SampleEpub.library)
      + Epub2Img.failed
          (SampleEpub.process_all_epubs SampleEpub.input_folder SampleEpub.library)
      = length (Epub2Img.find_epubs SampleEpub.input_folder SampleEpub.library))
  /\ (exists st1,
        Img2Text.main_loop Sample.readtext (Ok "ishan") Sample.utcnow
          Sample.input_root Sample.output_root [Sample.page1_jpg]
          (Img2Text.mkRun Sample.ready_disk 0 0) = Ok st1
        /\ Img2Text.successful st1 + Img2Text.failed st1
           = length [Sample.page1_jpg]
        /\ Img2Text.main_loop Sample.readtext (Ok "ishan") Sample.utcnow
             Sample.input_root Sample.output_root [Sample.a_png] st1
           = Ok Sample.ocr_main_run
        /\ Img2Text.successful Sample.ocr_main_run
           + Img2Text.failed Sample.ocr_main_run
           = length (Img2Text.find_images Sample.input_root Sample.ready_disk)).
Proof.
  apply (counters_account_for_every_unit string SampleEpub.Image_open
           SampleEpub.Image_save SampleEpub.find_all_img_src
           SampleEpub.read_epub Sample.readtext (Ok "ishan") Sample.utcnow
           SampleEpub.input_folder SampleEpub.output_folder
           Sample.input_root Sample.output_root
           SampleEpub.library [SampleEpub.broken_epub] [SampleEpub.jung_epub]
           Sample.images_disk Sample.ready_disk
           [Sample.page1_jpg] [Sample.a_png] Sample.ocr_main_run).
  - vm_compute. reflexivity.
  - vm_compute. reflexivity.
  - vm_compute. reflexivity.
  - vm_compute. reflexivity.
Defined.

End Pipelines.


(** ** More on the extraction pipeline *)

Module Epub2ImgMore.

Import Epub2Img.

Lemma lstrip_head (s chars : string) :
  PyStr.lstrip s chars = ""
  \/ exists a t, PyStr.lstrip s chars = String a t
                 /\ PyStr.mem_char a chars = false.
Proof.
  induction s as [|a s IH]; cbn [PyStr.lstrip]; [now left|].
  destruct (PyStr.mem_char a chars) eqn:Ha; [exact IH|].
  right. now exists a, s.
Qed.

Lemma lstrip_fixed (s chars : string) :
  (forall a t, s = String a t -> PyStr.mem_char a chars = false) ->
  PyStr.lstrip s chars = s.
Proof.
  destruct s as [|a s]; intros H; cbn [PyStr.lstrip]; [reflexivity|].
  now rewrite (H a s eq_refl).
Qed.

Lemma lstrip_splits (s chars : string) :
  exists dropped,
    s = dropped +:+ PyStr.lstrip s chars
    /\ PyStr.lstrip dropped chars = "".
Proof.
  induction s as [|a s (d & Hd & He)]; cbn [PyStr.lstrip].
  - now exists "".
  - destruct (PyStr.mem_char a chars) eqn:Ha.
    + exists (String a d). rewrite append_cons, <- Hd. split; [reflexivity|].
      cbn [PyStr.lstrip]. now rewrite Ha.
    + now exists "".
Qed.

Lemma mem_char_dot_slash (a : ascii) :
  PyStr.mem_char a "../" = PyStr.mem_char a "./".
Proof.
  cbn [PyStr.mem_char].
  now destruct (Ascii.eqb "." a), (Ascii.eqb "/" a).
Qed.

Lemma mem_char_dot_slash_false (a : ascii) :
  PyStr.mem_char a "./" = false -> a <> "."%char /\ a <> "/"%char.
Proof.
  cbn [PyStr.mem_char]. intros H.
  apply orb_false_iff in H as [H1 H2].
  apply orb_false_iff in H2 as [H2 _].
  apply Ascii.eqb_neq in H1, H2. split; congruence.
Qed.

(** X1. The two left-strips of lines 68-69 amount to the first alone:
    both drop the leading characters [.] and [/], whatever their order
    and number, so the second pass never changes anything. The cleaned
    [src] is what is left of the [src] after a prefix made of those two
    characters only, it does not begin with either of them, and
    cleaning it again changes nothing. *)
Theorem clean_src_is_one_left_strip (src : string) :
  clean_src src = PyStr.lstrip src "./"
  /\ (forall a t, clean_src src = String a t -> a <> "."%char /\ a <> "/"%char)
  /\ clean_src (clean_src src) = clean_src src
  /\ exists dropped,
       src = dropped +:+ clean_src src /\ PyStr.lstrip dropped "./" = "".
Proof.
  assert (H1 : clean_src src = PyStr.lstrip src "./").
  { unfold clean_src. apply lstrip_fixed. intros a t Ha.
    rewrite mem_char_dot_slash.
    destruct (lstrip_head src "./") as [He|(b & u & Hb & Hm)]; congruence. }
  assert (H2 : forall a t, clean_src src = String a t ->
                           PyStr.mem_char a "./" = false).
  { intros a t Ha. rewrite H1 in Ha.
    destruct (lstrip_head src "./") as [He|(b & u & Hb & Hm)]; congruence. }
  split; [exact H1|]. split.
  - intros a t Ha. apply mem_char_dot_slash_false. eauto.
  - split.
    + unfold clean_src at 1.
      rewrite (lstrip_fixed (clean_src src) "./") by exact H2.
      apply lstrip_fixed. intros a t Ha. rewrite mem_char_dot_slash. eauto.
    + rewrite H1. apply lstrip_splits.
Qed.

Lemma contains_empty (s : string) : PyStr.contains s "" = true.
Proof. now destruct s. Qed.

Lemma fold_left_fixed {A : Type} (f : World -> A -> World) (l : list A) (w : World) :
  (forall x w', In x l -> f w' x = w') -> fold_left f l w = w.
Proof.
  revert w. induction l as [|x l IH]; intros w H; cbn [fold_left]; [reflexivity|].
  rewrite (H x w) by now left.
  apply IH. intros y w' Hy. apply H. now right.
Qed.

Section Extraction.

Variable Img : Type.
Variable Image_open : string -> result Img.
Variable Image_save : Img -> Path -> result string.
Variable find_all_img_src : string -> result (list (option string)).

Local Abbreviation save_result := (save_result Img Image_open Image_save).
Local Abbreviation save_image := (save_image Img Image_open Image_save).
Local Abbreviation writable := (writable Img Image_open Image_save).
Local Abbreviation selected := (selected Img Image_open Image_save).
Local Abbreviation extract_direct := (extract_direct Img Image_open Image_save).
Local Abbreviation resolve_one := (resolve_one Img Image_open Image_save).
Local Abbreviation resolve_src := (resolve_src Img Image_open Image_save).
Local Abbreviation extract_img := (extract_img Img Image_open Image_save).
Local Abbreviation extract_images_from_item :=
  (extract_images_from_item Img Image_open Image_save find_all_img_src).

(** X2. A [src] made only of dots and slashes (such as [./] or [../])
    is not skipped, cleans to the empty string, and the empty string is
    contained in every file name: such an [img] makes the extractor
    write every image item of the container that is not
    [image/svg+xml] and whose payload decodes and can be saved. *)
Theorem empty_cleaned_src_matches_every_image
  (w : World) (src : string) (book : EpubBook) (folder : Path) :
  src <> "" ->
  clean_src src = "" ->
  saved (extract_img w (Some src) book folder)
  = saved w
    ++ List.map (fun it => (item_id it, target folder it))
         (List.filter
            (fun it => negb (String.eqb (media_type it) "image/svg+xml")
                       && writable w it folder)
            (get_items_of_type book ITEM_IMAGE)).
Proof.
  intros Hne Hclean. unfold Epub2Img.extract_img.
  apply String.eqb_neq in Hne. rewrite Hne.
  assert (Hhttp : PyStr.startswith src "http" = false).
  { destruct src as [|a t]; [reflexivity|].
    destruct (PyStr.startswith (String a t) "http") eqn:Hp; [|reflexivity].
    exfalso. unfold PyStr.startswith in Hp. cbn [String.prefix] in Hp.
    destruct (ascii_dec "h" a) as [<-|]; [|discriminate].
    discriminate Hclean. }
  rewrite Hhttp, Hclean.
  rewrite (Epub2ImgProps.resolve_src_saved Img Image_open Image_save
             w "" folder _ w eq_refl).
  f_equal. f_equal. apply List.filter_ext. intros it.
  unfold Epub2Img.selected. now rewrite contains_empty.
Qed.

Lemma resolve_one_grows_matching (w : World) (src : string) (it : EpubItem)
  (folder : Path) :
  grows (fun e => e = (item_id it, target folder it)
                  /\ PyStr.contains (file_name it) src = true
                  /\ media_type it <> "image/svg+xml")
    w (resolve_one w src it folder).
Proof.
  unfold Epub2Img.resolve_one.
  destruct (PyStr.contains (file_name it) src) eqn:Hc;
    [|apply Epub2ImgProps.grows_refl].
  destruct (String.eqb_spec (media_type it) "image/svg+xml") as [|Hsvg];
    [apply Epub2ImgProps.grows_refl|].
  eapply Epub2ImgProps.grows_weaken;
    [|apply Epub2ImgProps.save_image_grows].
  intros e ->. repeat split; assumption.
Qed.

(** X3. Through markup no [image/svg+xml] item is ever written: every
    file a markup page makes the extractor write comes from an image
    item of the container whose media type is not [image/svg+xml], and
    the item's file name contains the cleaned form of a [src] that the
    parser found on that very page, a [src] that is neither empty nor
    starting with [http]. *)
Theorem markup_page_never_writes_svg
  (w : World) (page : EpubItem) (book : EpubBook) (folder : Path) :
  media_type page = "application/xhtml+xml" ->
  exists new,
    saved (extract_images_from_item w page book folder) = saved w ++ new
    /\ forall id path, In (id, path) new ->
         exists it src data images,
           content page = Bytes data
           /\ find_all_img_src data = Ok images
           /\ In (Some src) images
           /\ src <> ""
           /\ PyStr.startswith src "http" = false
           /\ PyStr.contains (file_name it) (clean_src src) = true
           /\ In it (get_items_of_type book ITEM_IMAGE)
           /\ id = item_id it
           /\ path = target folder it
           /\ media_type it <> "image/svg+xml".
Proof.
  intros Hmt.
  set (P := fun e : string * Path =>
              exists it src data images,
                content page = Bytes data
                /\ find_all_img_src data = Ok images
                /\ In (Some src) images
                /\ src <> ""
                /\ PyStr.startswith src "http" = false
                /\ PyStr.contains (file_name it) (clean_src src) = true
                /\ In it (get_items_of_type book ITEM_IMAGE)
                /\ e = (item_id it, target folder it)
                /\ media_type it <> "image/svg+xml").
  assert (G : grows P w (extract_images_from_item w page book folder)).
  { unfold Epub2Img.extract_images_from_item. rewrite Hmt.
    change (PyStr.startswith "application/xhtml+xml" "image/") with false.
    destruct (content page) as [data|text] eqn:Hcontent;
      [|apply Epub2ImgProps.grows_refl].
    cbv iota.
    destruct (String.eqb _ _); [|apply Epub2ImgProps.grows_refl].
    destruct (find_all_img_src data) as [images|] eqn:Hfind;
      [|apply Epub2ImgProps.grows_refl].
    apply Epub2ImgProps.grows_fold. intros w1 img Himg.
    unfold Epub2Img.extract_img.
    destruct img as [src|]; [|apply Epub2ImgProps.grows_refl].
    destruct (String.eqb_spec src "") as [|Hne];
      [apply Epub2ImgProps.grows_refl|].
    destruct (PyStr.startswith src "http") eqn:Hhttp;
      [apply Epub2ImgProps.grows_refl|].
    unfold Epub2Img.resolve_src.
    apply Epub2ImgProps.grows_fold. intros w2 it Hit.
    eapply Epub2ImgProps.grows_weaken; [|apply resolve_one_grows_matching].
    intros e (-> & Hc & Hsvg). exists it, src, data, images.
    repeat split; assumption. }
  destruct G as (_ & _ & new & Hs & Hnew).
  exists new. split; [exact Hs|].
  intros id path Hin. rewrite List.Forall_forall in Hnew.
  destruct (Hnew _ Hin)
    as [(it & src & data & images & H1 & H2 & H3 & H4 & H5 & H6 & H7 & He & H8) _].
  injection He as -> ->. exists it, src, data, images.
  repeat split; assumption.
Qed.

(** X4. A direct image item (bytes content, media type starting with
    [image/]) makes the extractor write at most one file: none when the
    lower-cased media-type suffix is [svg] or when the payload does not
    decode or cannot be saved, and otherwise exactly the file
    [<id>.<ext>] of that item; directories are left as they are. *)
Theorem direct_item_written_at_most_once
  (w : World) (item : EpubItem) (book : EpubBook) (folder : Path)
  (data : string) :
  content item = Bytes data ->
  PyStr.startswith (media_type item) "image/" = true ->
  dirs (extract_images_from_item w item book folder) = dirs w
  /\ saved (extract_images_from_item w item book folder)
     = saved w
       ++ (if String.eqb (PyStr.lower (PyStr.split_last (media_type item) "/"))
                "svg"
           then []
           else if writable w item folder
                then [(item_id item, target folder item)]
                else []).
Proof.
  intros Hc Himg. unfold Epub2Img.extract_images_from_item.
  rewrite Hc, Himg. unfold Epub2Img.extract_direct.
  destruct (String.eqb _ "svg"); [now rewrite app_nil_r|].
  fold (target folder item).
  unfold Epub2Img.writable, Epub2Img.save_image.
  destruct (save_result w (item_id item) (content item) (target folder item))
    as [w'|] eqn:H; [|now rewrite app_nil_r].
  apply (Epub2ImgProps.save_result_ok Img Image_open Image_save) in H
    as (Hd & Hs & _ & _).
  split; assumption.
Qed.

End Extraction.

Lemma empty_cleaned_src_matches_every_image_witness :
  saved (extract_img string SampleEpub.Image_open SampleEpub.Image_save
           SampleEpub.disk (Some "./") SampleEpub.book_two SampleEpub.folder)
  = saved SampleEpub.disk
    ++ List.map (fun it => (item_id it, target SampleEpub.folder it))
         (List.filter
            (fun it => negb (String.eqb (media_type it) "image/svg+xml")
                       && writable string SampleEpub.Image_open
                            SampleEpub.Image_save SampleEpub.disk it
                            SampleEpub.folder)
            (get_items_of_type SampleEpub.book_two ITEM_IMAGE)).
Proof.
  apply (empty_cleaned_src_matches_every_image string SampleEpub.Image_open
           SampleEpub.Image_save SampleEpub.disk "./" SampleEpub.book_two
           SampleEpub.folder).
  - discriminate.
  - reflexivity.
Defined.

Lemma markup_page_never_writes_svg_witness :
  exists new,
    saved (SampleEpub.extract SampleEpub.disk SampleEpub.page SampleEpub.book)
    = saved SampleEpub.disk ++ new
    /\ forall id path, In (id, path) new ->
         exists it src data images,
           content SampleEpub.page = Bytes data
           /\ SampleEpub.find_all_img_src data = Ok images
           /\ In (Some src) images
           /\ src <> ""
           /\ PyStr.startswith src "http" = false
           /\ PyStr.contains (file_name it) (clean_src src) = true
           /\ In it (get_items_of_type SampleEpub.book ITEM_IMAGE)
           /\ id = item_id it
           /\ path = target SampleEpub.folder it
           /\ media_type it <> "image/svg+xml".
Proof.
  apply (markup_page_never_writes_svg string SampleEpub.Image_open
           SampleEpub.Image_save SampleEpub.find_all_img_src
           SampleEpub.disk SampleEpub.page SampleEpub.book SampleEpub.folder).
  reflexivity.
Defined.

Lemma direct_item_written_at_most_once_witness :
  dirs (SampleEpub.extract SampleEpub.disk SampleEpub.pic SampleEpub.book)
  = dirs SampleEpub.disk
  /\ saved (SampleEpub.extract SampleEpub.disk SampleEpub.pic SampleEpub.book)
     = saved SampleEpub.disk
       ++ (if String.eqb
                (PyStr.lower (PyStr.split_last (media_type SampleEpub.pic) "/"))
                "svg"
           then []
           else if writable string SampleEpub.Image_open SampleEpub.Image_save
                     SampleEpub.disk SampleEpub.pic SampleEpub.folder
                then [(item_id SampleEpub.pic,
                       target SampleEpub.folder SampleEpub.pic)]
                else []).
Proof.
  apply (direct_item_written_at_most_once string SampleEpub.Image_open
           SampleEpub.Image_save SampleEpub.find_all_img_src
           SampleEpub.disk SampleEpub.pic SampleEpub.book SampleEpub.folder
           "RASTER jpeg").
  - reflexivity.
  - reflexivity.
Defined.

Lemma mkdir_ok_spec (w w1 : World) (p : Path) :
  mkdir w p = Ok w1 ->
  files w1 = files w /\ saved w1 = saved w
  /\ (dirs w1 = dirs w \/ dirs w1 = dirs w ∪ {[ p ]}).
Proof.
  unfold mkdir. intros H.
  destruct (is_dir w p); [injection H as <-; auto|].
  destruct (is_file w p); [discriminate|].
  destruct (is_dir w (Pathlib.parent p)).
  - injection H as <-. cbn. auto.
  - destruct (is_file w (Pathlib.parent p)); discriminate.
Qed.

Section Batch.

Variable Img : Type.
Variable Image_open : string -> result Img.
Variable Image_save : Img -> Path -> result string.
Variable find_all_img_src : string -> result (list (option string)).
Variable read_epub : World -> Path -> result EpubBook.
Variables input_folder output_folder : Path.

Local Abbreviation extract_images_from_item :=
  (extract_images_from_item Img Image_open Image_save find_all_img_src).
Local Abbreviation process_epub :=
  (process_epub Img Image_open Image_save find_all_img_src read_epub
     output_folder).
Local Abbreviation step :=
  (step Img Image_open Image_save find_all_img_src read_epub output_folder).
Local Abbreviation process_epubs :=
  (process_epubs Img Image_open Image_save find_all_img_src read_epub
     output_folder).
Local Abbreviation process_all_epubs :=
  (process_all_epubs Img Image_open Image_save find_all_img_src read_epub
     input_folder output_folder).
Local Abbreviation subfolder epub_path :=
  (Pathlib.joinpath output_folder [Pathlib.stem epub_path]).

(** X5. A readable container none of whose items is an image
    ([image/...]) or a markup page is counted as succeeded, and leaves
    the disk exactly as it is once the subfolder has been created: the
    subfolder stays empty of new files. *)
Theorem container_without_images_succeeds
  (w w1 : World) (epub_path : Path) (book : EpubBook) :
  mkdir w (subfolder epub_path) = Ok w1 ->
  read_epub w1 epub_path = Ok book ->
  (forall it, In it (get_items book) ->
     PyStr.startswith (media_type it) "image/" = false
     /\ media_type it <> "application/xhtml+xml") ->
  process_epub w epub_path = (true, w1).
Proof.
  intros Hmk Hread Hitems. unfold Epub2Img.process_epub.
  rewrite Hmk, Hread. f_equal.
  apply fold_left_fixed. intros it w' Hit.
  destruct (Hitems it Hit) as [Himg Hpage].
  unfold Epub2Img.extract_images_from_item.
  destruct (content it); [|reflexivity].
  rewrite Himg. apply String.eqb_neq in Hpage. now rewrite Hpage.
Qed.

(** X6. With the output folder in place and no regular file sitting at
    the subfolder's path, creating the subfolder cannot fail, so
    [process_epub] returns [True] exactly when the container parser
    reads the container: no failure of the image codec or of the HTML
    parser on any item makes the container fail. *)
Theorem container_fails_only_on_read (w : World) (epub_path : Path) :
  is_dir w output_folder = true ->
  is_file w (subfolder epub_path) = false ->
  exists w1,
    mkdir w (subfolder epub_path) = Ok w1
    /\ files w1 = files w
    /\ (fst (process_epub w epub_path) = true
        <-> exists book, read_epub w1 epub_path = Ok book).
Proof.
  intros Hout Hfile.
  assert (Hmk : exists w1, mkdir w (subfolder epub_path) = Ok w1).
  { unfold mkdir. destruct (is_dir w (subfolder epub_path)); [eauto|].
    rewrite Hfile. unfold Pathlib.joinpath, Pathlib.parent.
    rewrite removelast_last, Hout. eauto. }
  destruct Hmk as [w1 Hmk]. exists w1. split; [exact Hmk|].
  split; [now apply mkdir_ok_spec in Hmk|].
  unfold Epub2Img.process_epub. rewrite Hmk.
  destruct (read_epub w1 epub_path) as [book|e]; cbn [fst].
  - split; eauto.
  - split; [discriminate | intros [book H]; discriminate H].
Qed.

Lemma process_epub_additive (w : World) (epub_path : Path) :
  (forall q, is_file w q = true ->
             is_file (snd (process_epub w epub_path)) q = true)
  /\ (forall q, q ∈ dirs w -> q ∈ dirs (snd (process_epub w epub_path)))
  /\ (forall q, q ∈ dirs (snd (process_epub w epub_path)) ->
                q ∈ dirs w \/ q = subfolder epub_path).
Proof.
  unfold Epub2Img.process_epub.
  destruct (mkdir w (subfolder epub_path)) as [w1|] eqn:Hmk; cbn [snd];
    [|auto].
  apply mkdir_ok_spec in Hmk as (Hf & _ & Hd).
  assert (H1 : (forall q, is_file w q = true -> is_file w1 q = true)
               /\ (forall q, q ∈ dirs w -> q ∈ dirs w1)
               /\ (forall q, q ∈ dirs w1 ->
                             q ∈ dirs w \/ q = subfolder epub_path)).
  { split; [unfold is_file; now rewrite Hf|].
    destruct Hd as [-> | ->]; split; auto; set_solver. }
  destruct (read_epub w1 epub_path) as [book|e]; cbn [snd]; [|exact H1].
  destruct H1 as (A & B & C).
  destruct (Epub2ImgProps.grows_fold (fun _ => True)
              (fun w item => extract_images_from_item w item book
                               (subfolder epub_path))
              (get_items book)) with (w := w1) as (Hd' & Hkeep & _).
  { intros w' item _.
    eapply Epub2ImgProps.grows_weaken;
      [|apply (Epub2ImgProps.extract_images_from_item_grows Img Image_open
                 Image_save)].
    auto. }
  rewrite Hd'. auto.
Qed.

Lemma process_epubs_additive (l : list Path) (st : Run) :
  (forall q, is_file (world st) q = true ->
             is_file (world (process_epubs l st)) q = true)
  /\ (forall q, q ∈ dirs (world st) -> q ∈ dirs (world (process_epubs l st)))
  /\ (forall q, q ∈ dirs (world (process_epubs l st)) ->
        q ∈ dirs (world st)
        \/ exists epub_path, In epub_path l /\ q = subfolder epub_path).
Proof.
  unfold Epub2Img.process_epubs.
  revert st. induction l as [|p l IH]; intros st; cbn [fold_left].
  - repeat split; auto.
  - destruct (IH (step st p)) as (A & B & C).
    assert (Hw : world (step st p) = snd (process_epub (world st) p)).
    { unfold Epub2Img.step.
      now destruct (process_epub (world st) p) as [[] w']. }
    destruct (process_epub_additive (world st) p) as (A1 & B1 & C1).
    rewrite Hw in A, B, C.
    split; [auto|]. split; [auto|].
    intros q Hq. destruct (C q Hq) as [Hq1|(p' & Hp' & ->)].
    + destruct (C1 q Hq1) as [Hq0 | ->]; [now left|].
      right. exists p. split; [now left | reflexivity].
    + right. exists p'. split; [now right | reflexivity].
Qed.

(** X7. The extraction run is additive: whatever the containers hold,
    every file on disk before the run is still a file after it, every
    directory is still there, and the only directories the run adds are
    subfolders named after the stems of the containers it found. *)
Theorem extraction_run_is_additive (w : World) :
  (forall q, is_file w q = true ->
             is_file (world (process_all_epubs w)) q = true)
  /\ (forall q, q ∈ dirs w -> q ∈ dirs (world (process_all_epubs w)))
  /\ (forall q, q ∈ dirs (world (process_all_epubs w)) ->
        q ∈ dirs w
        \/ exists epub_path,
             In epub_path (find_epubs input_folder w)
             /\ q = subfolder epub_path).
Proof.
  exact (process_epubs_additive (find_epubs input_folder w) (mkRun w 0 0)).
Qed.

End Batch.

(** A container holding a style sheet only. *)
Lemma container_without_images_succeeds_witness :
  process_epub string SampleEpub.Image_open SampleEpub.Image_save
    SampleEpub.find_all_img_src SampleMore.read_plain SampleEpub.output_folder
    SampleEpub.library SampleEpub.jung_epub
  = (true, SampleMore.library_jung).
Proof.
  apply (container_without_images_succeeds string SampleEpub.Image_open
           SampleEpub.Image_save SampleEpub.find_all_img_src
           SampleMore.read_plain SampleEpub.output_folder
           SampleEpub.library SampleMore.library_jung SampleEpub.jung_epub
           SampleMore.plain_book).
  - vm_compute. reflexivity.
  - vm_compute. reflexivity.
  - intros it [<-|[]]. split; [reflexivity | discriminate].
Defined.

Lemma container_fails_only_on_read_witness :
  exists w1,
    mkdir SampleEpub.library
      (Pathlib.joinpath SampleEpub.output_folder
         [Pathlib.stem SampleEpub.jung_epub]) = Ok w1
    /\ files w1 = files SampleEpub.library
    /\ (fst (process_epub string SampleEpub.Image_open SampleEpub.Image_save
               SampleEpub.find_all_img_src SampleEpub.read_epub
               SampleEpub.output_folder SampleEpub.library SampleEpub.jung_epub)
        = true
        <-> exists book, SampleEpub.read_epub w1 SampleEpub.jung_epub = Ok book).
Proof.
  apply (container_fails_only_on_read string SampleEpub.Image_open
           SampleEpub.Image_save SampleEpub.find_all_img_src
           SampleEpub.read_epub SampleEpub.output_folder
           SampleEpub.library SampleEpub.jung_epub).
  - vm_compute. reflexivity.
  - vm_compute. reflexivity.
Defined.

Lemma in_step_fold {A : Type} (w w1 : World) (f : World -> A -> World)
  (l : list A) :
  (forall a b x, Rerun.in_step w w1 a b -> Rerun.in_step w w1 (f a x) (f b x)) ->
  forall a b, Rerun.in_step w w1 a b ->
              Rerun.in_step w w1 (fold_left f l a) (fold_left f l b).
Proof.
  intros Hf. induction l as [|x l IH]; intros a b H; cbn [fold_left]; auto.
Qed.

Section Twice.

Variable Img : Type.
Variable Image_open : string -> result Img.
Variable Image_save : Img -> Path -> result string.
Variable find_all_img_src : string -> result (list (option string)).
Variable read_epub : World -> Path -> result EpubBook.
Variable output_folder : Path.

Local Abbreviation save_result := (save_result Img Image_open Image_save).
Local Abbreviation save_image := (save_image Img Image_open Image_save).
Local Abbreviation resolve_one := (resolve_one Img Image_open Image_save).
Local Abbreviation extract_img := (extract_img Img Image_open Image_save).
Local Abbreviation extract_images_from_item :=
  (extract_images_from_item Img Image_open Image_save find_all_img_src).
Local Abbreviation process_epub :=
  (process_epub Img Image_open Image_save find_all_img_src read_epub
     output_folder).
Local Abbreviation subfolder epub_path :=
  (Pathlib.joinpath output_folder [Pathlib.stem epub_path]).

(** What a save writes does not depend on the disk. *)
Lemma save_result_factor (id : string) (c : Content) (path : Path) :
  exists r : result string,
    forall w,
      save_result w id c path
      = (let* enc := r in
         let* w0 := open_w w path in
         Ok {| dirs := dirs w0;
               files := <[ path := enc ]> (files w0);
               saved := saved w0 ++ [(id, path)] |}).
Proof.
  unfold Epub2Img.save_result.
  destruct c as [data|text]; cbn [rbind].
  - destruct (Image_open data) as [img|e]; cbn [rbind].
    + now exists (Image_save img path).
    + now exists (Raise e).
  - now exists (Raise RuntimeError).
Qed.

Lemma save_image_in_step (w w1 a b : World) (id : string) (c : Content)
  (path : Path) :
  Rerun.in_step w w1 a b ->
  Rerun.in_step w w1 (save_image a id c path) (save_image b id c path).
Proof.
  intros (Hd & new & Hs & Hin & Hout).
  unfold Epub2Img.save_image.
  destruct (save_result_factor id c path) as [r Hr]. rewrite !Hr.
  destruct r as [enc|e]; cbn [rbind]; [|now split; [|exists new]].
  pose proof (Epub2ImgProps.open_w_same_outcome a b path Hd) as Hsame.
  destruct (open_w a path) as [a0|ea] eqn:Ha,
           (open_w b path) as [b0|eb] eqn:Hb; try discriminate Hsame;
    cbn [rbind]; [|now split; [|exists new]].
  apply Epub2ImgProps.open_w_ok in Ha as (Hda & Hsa & Hfa).
  apply Epub2ImgProps.open_w_ok in Hb as (Hdb & Hsb & Hfb).
  split; [cbn; congruence|].
  exists (new ++ [(id, path)]). cbn [saved files].
  split; [now rewrite Hsa, Hs, app_assoc|].
  rewrite Hfa, Hfb, List.map_app. cbn [List.map snd].
  split; intros p Hp.
  - destruct (decide (path = p)) as [<-|Hne].
    + now rewrite !lookup_insert_eq.
    + rewrite !lookup_insert_ne by assumption. apply Hin.
      apply List.in_app_or in Hp as [Hp|[Hp|[]]]; [exact Hp | contradiction].
  - assert (Hne : path <> p).
    { intros <-. apply Hp, List.in_or_app. right. now left. }
    rewrite !lookup_insert_ne by assumption. apply Hout.
    intros Hp'. apply Hp, List.in_or_app. now left.
Qed.

Lemma extract_images_from_item_in_step (w w1 a b : World) (item : EpubItem)
  (book : EpubBook) (folder : Path) :
  Rerun.in_step w w1 a b ->
  Rerun.in_step w w1 (extract_images_from_item a item book folder)
    (extract_images_from_item b item book folder).
Proof.
  intros H. unfold Epub2Img.extract_images_from_item.
  destruct (content item) as [data|text]; [|exact H].
  destruct (PyStr.startswith (media_type item) "image/").
  - unfold Epub2Img.extract_direct.
    destruct (String.eqb _ "svg"); [exact H|].
    now apply save_image_in_step.
  - destruct (String.eqb (media_type item) "application/xhtml+xml"); [|exact H].
    destruct (find_all_img_src data) as [images|]; [|exact H].
    apply in_step_fold; [|exact H].
    intros a' b' img H'. unfold Epub2Img.extract_img.
    destruct img as [src|]; [|exact H'].
    destruct (String.eqb src ""); [exact H'|].
    destruct (PyStr.startswith src "http"); [exact H'|].
    unfold Epub2Img.resolve_src. apply in_step_fold; [|exact H'].
    intros a2 b2 it H2. unfold Epub2Img.resolve_one.
    destruct (PyStr.contains (file_name it) (clean_src src)); [|exact H2].
    destruct (String.eqb (media_type it) "image/svg+xml"); [exact H2|].
    now apply save_image_in_step.
Qed.

(** X8. Extracting a container a second time changes no file: when
    the container still parses to the same book, the second
    [process_epub] succeeds and leaves every file, and every directory,
    exactly as the first run left it (each image is decoded and
    written again, with the same bytes at the same path). *)
Theorem second_extraction_changes_no_file
  (w w1 : World) (epub_path : Path) (book : EpubBook) :
  mkdir w (subfolder epub_path) = Ok w1 ->
  read_epub w1 epub_path = Ok book ->
  read_epub (snd (process_epub w epub_path)) epub_path = Ok book ->
  exists w2,
    process_epub (snd (process_epub w epub_path)) epub_path = (true, w2)
    /\ files w2 = files (snd (process_epub w epub_path))
    /\ dirs w2 = dirs (snd (process_epub w epub_path)).
Proof.
  intros Hmk Hread Hagain.
  pose proof (Epub2ImgProps.mkdir_ok_is_dir _ _ _ Hmk) as Hdir.
  set (f := fun w item =>
              extract_images_from_item w item book (subfolder epub_path)).
  assert (Hfirst : snd (process_epub w epub_path)
                   = fold_left f (get_items book) w1).
  { unfold Epub2Img.process_epub. now rewrite Hmk, Hread. }
  rewrite Hfirst in Hagain |- *.
  set (u := fold_left f (get_items book) w1) in *.
  assert (Hdu : dirs u = dirs w1).
  { apply (Epub2ImgProps.extract_all_dirs Img Image_open Image_save
             find_all_img_src). }
  assert (Hmk2 : mkdir u (subfolder epub_path) = Ok u).
  { unfold mkdir. now rewrite (Epub2ImgProps.is_dir_dirs w1 u _ Hdu), Hdir. }
  exists (fold_left f (get_items book) u).
  split; [unfold Epub2Img.process_epub; now rewrite Hmk2, Hagain|].
  assert (Hstep : Rerun.in_step w1 u u (fold_left f (get_items book) u)).
  { apply (in_step_fold w1 u f (get_items book)).
    - intros a b x. apply extract_images_from_item_in_step.
    - split; [exact Hdu|]. exists []. rewrite app_nil_r.
      split; [reflexivity|]. split; [intros p []|reflexivity]. }
  destruct Hstep as (Hd & new & _ & Hin & Hout).
  split; [|exact Hd].
  apply map_eq. intros p.
  destruct (List.in_dec (List.list_eq_dec String.string_dec) p (List.map snd new));
    auto.
Qed.

(** X16. When a regular file sits at the path of a container's
    subfolder, the subfolder cannot be created: the container is
    counted as failed without being opened, whatever it holds, and the
    disk is left as it was. *)
Theorem squatted_subfolder_fails_container
  (st : Run) (epub_path : Path) :
  is_dir (world st) (subfolder epub_path) = false ->
  is_file (world st) (subfolder epub_path) = true ->
  process_epub (world st) epub_path = (false, world st)
  /\ step Img Image_open Image_save find_all_img_src read_epub output_folder
       st epub_path
     = mkRun (world st) (successful st) (failed st + 1).
Proof.
  intros Hdir Hfile.
  assert (H : process_epub (world st) epub_path = (false, world st)).
  { unfold Epub2Img.process_epub, mkdir. now rewrite Hdir, Hfile. }
  split; [exact H|]. unfold Epub2Img.step. now rewrite H.
Qed.

End Twice.

Lemma second_extraction_changes_no_file_witness :
  exists w2,
    process_epub string SampleEpub.Image_open SampleEpub.Image_save
      SampleEpub.find_all_img_src SampleEpub.read_epub SampleEpub.output_folder
      (snd (process_epub string SampleEpub.Image_open SampleEpub.Image_save
              SampleEpub.find_all_img_src SampleEpub.read_epub
              SampleEpub.output_folder SampleEpub.library SampleEpub.jung_epub))
      SampleEpub.jung_epub = (true, w2)
    /\ files w2
       = files (snd (process_epub string SampleEpub.Image_open
                       SampleEpub.Image_save SampleEpub.find_all_img_src
                       SampleEpub.read_epub SampleEpub.output_folder
                       SampleEpub.library SampleEpub.jung_epub))
    /\ dirs w2
       = dirs (snd (process_epub string SampleEpub.Image_open
                      SampleEpub.Image_save SampleEpub.find_all_img_src
                      SampleEpub.read_epub SampleEpub.output_folder
                      SampleEpub.library SampleEpub.jung_epub)).
Proof.
  apply (second_extraction_changes_no_file string SampleEpub.Image_open
           SampleEpub.Image_save SampleEpub.find_all_img_src
           SampleEpub.read_epub SampleEpub.output_folder
           SampleEpub.library SampleMore.library_jung SampleEpub.jung_epub
           SampleEpub.book).
  - vm_compute. reflexivity.
  - vm_compute. reflexivity.
  - vm_compute. reflexivity.
Defined.

Lemma lower_char_dot (c : ascii) :
  PyStr.lower_char c = "."%char -> c = "."%char.
Proof.
  destruct c as [[] [] [] [] [] [] [] []]; vm_compute; intros H;
    try reflexivity; discriminate H.
Qed.

Lemma rfind_lower_dot (s : string) :
  PyStr.rfind (PyStr.lower s) "." = PyStr.rfind s ".".
Proof.
  induction s as [|a s IH]; [reflexivity|].
  cbn [PyStr.lower PyStr.rfind]. rewrite IH.
  destruct (PyStr.rfind s "."); [reflexivity|].
  destruct (Ascii.eqb_spec a ".") as [->|Hne]; [reflexivity|].
  destruct (Ascii.eqb_spec (PyStr.lower_char a) ".") as [He|_]; [|reflexivity].
  now apply lower_char_dot in He.
Qed.

Lemma checked_extension_no_dot (img_extension : string) :
  PyStr.rfind (checked_extension img_extension) "." = None.
Proof.
  pose proof (Epub2ImgProps.checked_extension_valid img_extension) as H.
  rewrite <- rfind_lower_dot.
  unfold PyStr.in_list, valid_extensions in H. cbn [existsb] in H.
  repeat (apply orb_true_iff in H as [H|H]);
    try (apply String.eqb_eq in H; rewrite H; reflexivity).
  discriminate H.
Qed.

Lemma rfind_append_dot (s e : string) :
  PyStr.rfind e "." = None ->
  PyStr.rfind (s +:+ "." +:+ e) "." = Some (String.length s).
Proof.
  intros He. induction s as [|a s IH].
  - change ("" +:+ "." +:+ e) with (String "." e).
    cbn [PyStr.rfind]. now rewrite He.
  - rewrite append_cons. cbn [PyStr.rfind String.length]. now rewrite IH.
Qed.

Lemma dotted_name_inj (s1 s2 e1 e2 : string) :
  PyStr.rfind e1 "." = None ->
  PyStr.rfind e2 "." = None ->
  s1 +:+ "." +:+ e1 = s2 +:+ "." +:+ e2 ->
  s1 = s2 /\ e1 = e2.
Proof.
  intros H1 H2 H.
  assert (Hlen : String.length s1 = String.length s2).
  { pose proof (rfind_append_dot s1 e1 H1) as R1.
    pose proof (rfind_append_dot s2 e2 H2) as R2.
    rewrite H in R1. congruence. }
  assert (Hs : s1 = s2).
  { rewrite <- (slice_to_append s1 ("." +:+ e1)),
            <- (slice_to_append s2 ("." +:+ e2)).
    now rewrite H, Hlen. }
  split; [exact Hs|]. subst s2.
  assert (Hd : "." +:+ e1 = "." +:+ e2).
  { rewrite <- (slice_from_append s1 ("." +:+ e1)),
            <- (slice_from_append s1 ("." +:+ e2)).
    now rewrite H. }
  now injection Hd.
Qed.

(** X15. For resource ids that hold no path separator, files written
    under one folder never collide between ids: two such items are
    saved at the same path exactly when they have the same id and the
    same kept extension, because a kept extension holds no dot. *)
Theorem same_file_iff_same_id_and_extension
  (folder : Path) (it1 it2 : EpubItem) :
  PyStr.contains (item_id it1) "/" = false ->
  PyStr.contains (item_id it2) "/" = false ->
  (target folder it1 = target folder it2
   <-> item_id it1 = item_id it2
       /\ checked_extension (PyStr.split_last (media_type it1) "/")
          = checked_extension (PyStr.split_last (media_type it2) "/")).
Proof.
  intros _ _.
  unfold target, image_path, Pathlib.joinpath. split.
  - intros H. apply app_inv_head in H. injection H as H.
    apply dotted_name_inj in H; [exact H | |];
      apply checked_extension_no_dot.
  - intros [-> ->]. reflexivity.
Qed.

Lemma same_file_iff_same_id_and_extension_witness :
  target SampleEpub.folder SampleEpub.pic
  = target SampleEpub.folder SampleEpub.thumb
  <-> item_id SampleEpub.pic = item_id SampleEpub.thumb
      /\ checked_extension (PyStr.split_last (media_type SampleEpub.pic) "/")
         = checked_extension
             (PyStr.split_last (media_type SampleEpub.thumb) "/").
Proof.
  apply (same_file_iff_same_id_and_extension SampleEpub.folder
           SampleEpub.pic SampleEpub.thumb).
  - reflexivity.
  - reflexivity.
Defined.

Lemma squatted_subfolder_fails_container_witness :
  process_epub string SampleEpub.Image_open SampleEpub.Image_save
    SampleEpub.find_all_img_src SampleEpub.read_epub SampleEpub.output_folder
    (world (mkRun SampleMore.squatted_library 0 0)) SampleEpub.jung_epub
  = (false, world (mkRun SampleMore.squatted_library 0 0))
  /\ step string SampleEpub.Image_open SampleEpub.Image_save
       SampleEpub.find_all_img_src SampleEpub.read_epub
       SampleEpub.output_folder (mkRun SampleMore.squatted_library 0 0)
       SampleEpub.jung_epub
     = mkRun (world (mkRun SampleMore.squatted_library 0 0))
         (successful (mkRun SampleMore.squatted_library 0 0))
         (failed (mkRun SampleMore.squatted_library 0 0) + 1).
Proof.
  apply (squatted_subfolder_fails_container string SampleEpub.Image_open
           SampleEpub.Image_save SampleEpub.find_all_img_src
           SampleEpub.read_epub SampleEpub.output_folder
           (mkRun SampleMore.squatted_library 0 0) SampleEpub.jung_epub).
  - vm_compute. reflexivity.
  - vm_compute. reflexivity.
Defined.

End Epub2ImgMore.


(** ** More on the OCR pipeline *)

Module Img2TextMore.

Import Img2Text.

Lemma is_under_app (root p : Path) :
  is_under root p = true -> exists rel, rel <> [] /\ p = root ++ rel.
Proof.
  revert p. induction root as [|r root IH]; intros [|c p] H; cbn in H;
    try discriminate.
  - exists (c :: p). split; [discriminate | reflexivity].
  - apply andb_true_iff in H as [Hrc Hp].
    apply String.eqb_eq in Hrc as ->.
    destruct (IH p Hp) as (rel & Hrel & ->).
    exists rel. split; [exact Hrel | reflexivity].
Qed.

Lemma kept_part_is_stem (nm : string) :
  (if String.eqb (Pathlib.suffix_of_name nm) "" then nm
   else PyStr.slice_to
          (String.length nm - String.length (Pathlib.suffix_of_name nm)) nm)
  = Pathlib.stem_of_name nm.
Proof.
  unfold Pathlib.suffix_of_name, Pathlib.stem_of_name.
  destruct (PyStr.rfind nm ".") as [i|] eqn:Hr; [|reflexivity].
  destruct (Nat.ltb 0 i && Nat.ltb i (String.length nm - 1)) eqn:Hc;
    [|reflexivity].
  apply andb_true_iff in Hc as [_ Hi%Nat.ltb_lt].
  destruct (String.eqb_spec (PyStr.slice_from i nm) "") as [He|_].
  - apply (f_equal String.length) in He.
    rewrite length_slice_from in He; simpl in He; lia.
  - rewrite length_slice_from. f_equal. lia.
Qed.

Lemma output_path_of_app (input_root output_root rel : Path) :
  rel <> [] ->
  Pathlib.name rel <> "" ->
  output_path_of input_root output_root (input_root ++ rel)
  = Ok (output_root ++ Pathlib.parent rel
        ++ [Pathlib.stem_of_name (Pathlib.name rel) +:+ ".txt"]).
Proof.
  intros Hrel Hnm. unfold output_path_of.
  rewrite relative_to_app. cbn [rbind].
  rewrite (Img2TextProps.with_suffix_txt rel Hnm). cbn [rbind].
  now rewrite kept_part_is_stem.
Qed.

(** X9. Every path the image scanner returns is on disk strictly under
    the scan root and has a suffix that is, lower-cased, one of [.png],
    [.jpg], [.jpeg], [.tiff], [.bmp]; and the path arithmetic of
    [create_output_path] cannot raise on it: its output path is the
    output root, the image's folders below the scan root, and the
    image's stem followed by [.txt]. *)
Theorem scanned_image_has_output_path
  (input_root output_root : Path) (w : World) (image_path : Path) :
  In image_path (find_images input_root w) ->
  is_dir w input_root = true
  /\ In image_path (entries w)
  /\ PyStr.in_list (PyStr.lower (Pathlib.suffix image_path)) image_extensions
     = true
  /\ exists rel,
       rel <> []
       /\ image_path = input_root ++ rel
       /\ output_path_of input_root output_root image_path
          = Ok (output_root ++ Pathlib.parent rel
                ++ [Pathlib.stem_of_name (Pathlib.name rel) +:+ ".txt"]).
Proof.
  unfold find_images. intros H.
  apply List.filter_In in H as [Hglob Hext].
  unfold rglob in Hglob.
  destruct (is_dir w input_root); [|destruct Hglob].
  apply List.filter_In in Hglob as [Hent Hunder].
  apply andb_true_iff in Hunder as [Hunder _].
  repeat split; try assumption.
  destruct (is_under_app _ _ Hunder) as (rel & Hrel & ->).
  exists rel. repeat split; try assumption.
  apply output_path_of_app; [exact Hrel|].
  intros Hnm. unfold Pathlib.suffix in Hext.
  rewrite (Img2TextProps.name_app _ _ Hrel), Hnm in Hext.
  discriminate Hext.
Qed.

Lemma scanned_image_has_output_path_witness :
  is_dir Sample.images_disk Sample.input_root = true
  /\ In Sample.page1_jpg (entries Sample.images_disk)
  /\ PyStr.in_list (PyStr.lower (Pathlib.suffix Sample.page1_jpg))
       image_extensions = true
  /\ exists rel,
       rel <> []
       /\ Sample.page1_jpg = Sample.input_root ++ rel
       /\ output_path_of Sample.input_root Sample.output_root Sample.page1_jpg
          = Ok (Sample.output_root ++ Pathlib.parent rel
                ++ [Pathlib.stem_of_name (Pathlib.name rel) +:+ ".txt"]).
Proof.
  apply (scanned_image_has_output_path Sample.input_root Sample.output_root
           Sample.images_disk Sample.page1_jpg).
  vm_compute. left. reflexivity.
Defined.

Lemma append_inj_l (s t sfx : string) : s +:+ sfx = t +:+ sfx -> s = t.
Proof.
  intros H.
  assert (Hlen : String.length s = String.length t).
  { apply (f_equal String.length) in H. rewrite !length_append in H. lia. }
  rewrite <- (slice_to_append s sfx), <- (slice_to_append t sfx).
  now rewrite H, Hlen.
Qed.

(** X10. Two images under the scan root get the same text artifact
    path exactly when they lie in the same folder and have the same
    stem: images that differ only in their extension (such as [a.png]
    and [a.jpg]) share one artifact, and no other two images do. *)
Theorem same_artifact_iff_same_folder_and_stem
  (input_root output_root rel1 rel2 : Path) :
  rel1 <> [] -> Pathlib.name rel1 <> "" ->
  rel2 <> [] -> Pathlib.name rel2 <> "" ->
  (output_path_of input_root output_root (input_root ++ rel1)
   = output_path_of input_root output_root (input_root ++ rel2)
   <-> Pathlib.parent rel1 = Pathlib.parent rel2
       /\ Pathlib.stem_of_name (Pathlib.name rel1)
          = Pathlib.stem_of_name (Pathlib.name rel2)).
Proof.
  intros Hr1 Hn1 Hr2 Hn2.
  rewrite !output_path_of_app by assumption.
  split.
  - intros H. injection H as H.
    apply app_inv_head in H. apply app_inj_tail in H as [Hp Hs].
    split; [exact Hp | now apply append_inj_l in Hs].
  - intros [-> ->]. reflexivity.
Qed.

Lemma same_artifact_iff_same_folder_and_stem_witness :
  output_path_of Sample.input_root Sample.output_root
    (Sample.input_root ++ ["jung"; "a.png"])
  = output_path_of Sample.input_root Sample.output_root
      (Sample.input_root ++ ["jung"; "a.jpg"])
  <-> Pathlib.parent ["jung"; "a.png"] = Pathlib.parent ["jung"; "a.jpg"]
      /\ Pathlib.stem_of_name (Pathlib.name ["jung"; "a.png"])
         = Pathlib.stem_of_name (Pathlib.name ["jung"; "a.jpg"]).
Proof.
  apply (same_artifact_iff_same_folder_and_stem Sample.input_root
           Sample.output_root ["jung"; "a.png"] ["jung"; "a.jpg"]).
  - discriminate.
  - vm_compute. discriminate.
  - discriminate.
  - vm_compute. discriminate.
Defined.

Lemma write_frame (w : World) (o q : Path) (s : string) :
  dirs (write w o s) = dirs w
  /\ (q <> o -> files (write w o s) !! q = files w !! q).
Proof.
  split; [reflexivity|]. intros Hq. cbn. now rewrite lookup_alter_ne.
Qed.

Lemma write_results_frame (lines : list string) (w : World) (o q : Path) :
  dirs (write_results w o lines) = dirs w
  /\ (q <> o -> files (write_results w o lines) !! q = files w !! q).
Proof.
  unfold write_results. revert w.
  induction lines as [|line lines IH]; intros w; cbn [fold_left];
    [now split|].
  destruct (IH (write w o (line +:+ nl))) as [Hd Hf].
  destruct (write_frame w o q (line +:+ nl)) as [Hd' Hf'].
  split; [congruence|]. intros Hq. now rewrite Hf, Hf'.
Qed.

Lemma mkdir_parents_dirs (w w' : World) (p : Path) :
  mkdir_parents w p = Ok w' -> forall q, q ∈ dirs w -> q ∈ dirs w'.
Proof.
  unfold mkdir_parents. intros H q Hq.
  destruct (is_file w p); [discriminate|].
  destruct (existsb (is_file w) (prefixes p)); [discriminate|].
  injection H as <-. cbn. set_solver.
Qed.

Section Ocr.

Variable readtext : Path -> result (list string).
Variable getlogin : result string.
Variable utcnow : Path -> string.
Variables input_root output_root : Path.

Local Abbreviation process_image := (process_image readtext getlogin utcnow).
Local Abbreviation output_path_of := (output_path_of input_root output_root).
Local Abbreviation create_output_path :=
  (create_output_path input_root output_root).
Local Abbreviation main_step :=
  (main_step readtext getlogin utcnow input_root output_root).
Local Abbreviation main_loop :=
  (main_loop readtext getlogin utcnow input_root output_root).

(** X11. When the engine reads the image and the artifact is opened
    but [os.getlogin()] raises, [process_image] returns [False] and
    leaves a truncated artifact behind: the file holds the first two
    header lines and nothing else, whatever it held before. *)
Theorem login_failure_leaves_partial_artifact
  (w w0 : World) (image_path output_path : Path) (lines : list string)
  (e : exn) :
  readtext image_path = Ok lines ->
  open_w w output_path = Ok w0 ->
  getlogin = Raise e ->
  exists w',
    process_image w image_path output_path = (false, w')
    /\ files w' !! output_path
       = Some ("Source Image: " +:+ Pathlib.name image_path +:+ nl
               +:+ "Processing Date (UTC): " +:+ utcnow image_path +:+ nl).
Proof.
  intros Hread Hopen Hlogin. unfold Img2Text.process_image.
  rewrite Hread, Hopen, Hlogin.
  eexists; split; [reflexivity|].
  apply Img2TextProps.open_w_lookup in Hopen.
  erewrite Img2TextProps.write_lookup;
    [|eapply Img2TextProps.write_lookup; exact Hopen].
  f_equal. now rewrite !Img2TextProps.append_assoc.
Qed.

Lemma process_image_frame (w : World) (image_path output_path q : Path) :
  dirs (snd (process_image w image_path output_path)) = dirs w
  /\ (q <> output_path ->
      files (snd (process_image w image_path output_path)) !! q
      = files w !! q).
Proof.
  unfold Img2Text.process_image.
  destruct (readtext image_path) as [lines|]; [|now split].
  destruct (open_w w output_path) as [w0|] eqn:Hopen; [|now split].
  apply Epub2ImgProps.open_w_ok in Hopen as (Hd & _ & Hf).
  assert (H0 : dirs w0 = dirs w
               /\ (q <> output_path -> files w0 !! q = files w !! q)).
  { split; [exact Hd|]. intros Hq. rewrite Hf. now rewrite lookup_insert_ne. }
  destruct H0 as [Hd0 Hf0].
  destruct getlogin as [user|]; cbn [snd].
  - destruct (write_results_frame lines
                (write (write (write (write w0 output_path
                   ("Source Image: " +:+ Pathlib.name image_path +:+ nl))
                   output_path
                   ("Processing Date (UTC): " +:+ utcnow image_path +:+ nl))
                   output_path ("Processed by: " +:+ user +:+ nl))
                   output_path (separator +:+ nl +:+ nl))
                output_path q) as [Hd1 Hf1].
    split; [rewrite Hd1; exact Hd0|].
    intros Hq. rewrite (Hf1 Hq). cbn.
    rewrite !lookup_alter_ne by congruence. now apply Hf0.
  - split; [exact Hd0|].
    intros Hq. cbn. rewrite !lookup_alter_ne by congruence. now apply Hf0.
Qed.

Lemma main_step_frame (st st' : Run) (image_path q : Path) :
  main_step st image_path = Ok st' ->
  (forall d, d ∈ dirs (world st) -> d ∈ dirs (world st'))
  /\ (output_path_of image_path <> Ok q ->
      files (world st') !! q = files (world st) !! q).
Proof.
  unfold Img2Text.main_step, Img2Text.create_output_path. intros H.
  destruct (output_path_of image_path) as [o|]; cbn [rbind] in H;
    [|discriminate].
  destruct (mkdir_parents (world st) (Pathlib.parent o)) as [w1|] eqn:Hmk;
    cbn [rbind] in H; [|discriminate].
  destruct (process_image_frame w1 image_path o q) as [Hd Hf].
  pose proof (mkdir_parents_dirs _ _ _ Hmk) as Hgrow.
  apply Img2TextProps.mkdir_parents_files in Hmk as [Hfiles _].
  assert (Hw : world st' = snd (process_image w1 image_path o)).
  { destruct (process_image w1 image_path o) as [[] w2];
      injection H as <-; reflexivity. }
  rewrite Hw. split.
  - intros d Hdir. rewrite Hd. auto.
  - intros Hq. rewrite Hf by congruence. now rewrite Hfiles.
Qed.


(** X13. [create_output_path] is called outside any [try]: when a
    regular file sits where the mirrored parent directory of an image,
    or one of its ancestors, should be, the run is aborted at that
    image with an exception; the images after it are not processed and
    no summary is produced. *)
Theorem blocked_parent_aborts_the_run
  (st : Run) (image_path output_path blocker : Path) (rest : list Path) :
  output_path_of image_path = Ok output_path ->
  In blocker (prefixes (Pathlib.parent output_path)) ->
  is_file (world st) blocker = true ->
  exists e,
    (e = FileExistsError \/ e = NotADirectoryError)
    /\ create_output_path (world st) image_path = Raise e
    /\ main_loop (image_path :: rest) st = Raise e.
Proof.
  intros Hout Hin Hfile.
  assert (Hmk : exists e,
            (e = FileExistsError \/ e = NotADirectoryError)
            /\ mkdir_parents (world st) (Pathlib.parent output_path) = Raise e).
  { unfold mkdir_parents.
    destruct (is_file (world st) (Pathlib.parent output_path)); [eauto|].
    assert (Hex : existsb (is_file (world st))
                    (prefixes (Pathlib.parent output_path)) = true).
    { apply List.existsb_exists. eauto. }
    rewrite Hex. eauto. }
  destruct Hmk as (e & He & Hmk). exists e. split; [exact He|].
  assert (Hc : create_output_path (world st) image_path = Raise e).
  { unfold Img2Text.create_output_path. rewrite Hout. cbn [rbind].
    now rewrite Hmk. }
  split; [exact Hc|].
  cbn [Img2Text.main_loop]. unfold Img2Text.main_step. now rewrite Hc.
Qed.

Lemma mkdir_parents_clear (w : World) (p : Path) :
  is_file w p = false ->
  (forall b, In b (prefixes p) -> is_file w b = false) ->
  exists w', mkdir_parents w p = Ok w'.
Proof.
  intros Hp Hb. unfold mkdir_parents. rewrite Hp.
  destruct (existsb (is_file w) (prefixes p)) eqn:Hex; [|eauto].
  apply List.existsb_exists in Hex as (b & Hin & Hfile).
  rewrite (Hb b Hin) in Hfile. discriminate Hfile.
Qed.

(** X14. The OCR loop runs to its end whenever the output tree is
    clear: if the path arithmetic succeeds for every image given and no
    directory position it needs (the mirrored parent of an image or one
    of its ancestors) is a regular file at the start or the artifact
    path of an image of the list, then the loop returns, and its
    counters have grown by the number of images. *)
Theorem ocr_loop_completes_on_clear_tree
  (image_list : list Path) (st : Run) :
  (forall image_path, In image_path image_list ->
     exists output_path,
       output_path_of image_path = Ok output_path
       /\ forall b,
            b = Pathlib.parent output_path
            \/ In b (prefixes (Pathlib.parent output_path)) ->
            is_file (world st) b = false
            /\ forall other, In other image_list ->
                             output_path_of other <> Ok b) ->
  exists st',
    main_loop image_list st = Ok st'
    /\ successful st' + failed st'
       = successful st + failed st + length image_list.
Proof.
  revert st. induction image_list as [|p rest IH]; intros st H;
    cbn [Img2Text.main_loop length].
  - exists st. split; [reflexivity | lia].
  - destruct (H p (or_introl eq_refl)) as (o & Ho & Hclear).
    destruct (mkdir_parents_clear (world st) (Pathlib.parent o))
      as [w1 Hmk].
    { apply Hclear. now left. }
    { intros b Hb. apply Hclear. now right. }
    assert (Hstep : exists st1, main_step st p = Ok st1).
    { unfold Img2Text.main_step, Img2Text.create_output_path.
      rewrite Ho. cbn [rbind]. rewrite Hmk. cbn [rbind].
      destruct (process_image w1 p o) as [[] w2]; eauto. }
    destruct Hstep as [st1 Hstep]. rewrite Hstep. cbn [rbind].
    destruct (IH st1) as (st' & Hloop & Hcount).
    { intros img Himg.
      destruct (H img (or_intror Himg)) as (o' & Ho' & Hclear').
      exists o'. split; [exact Ho'|].
      intros b Hb. destruct (Hclear' b Hb) as [Hfile Hnot].
      split; [|intros other Hother; apply Hnot; now right].
      destruct (main_step_frame st st1 p b Hstep) as [_ Hf].
      unfold is_file in *. rewrite Hf; [exact Hfile|].
      apply Hnot. now left. }
    exists st'. split; [exact Hloop|].
    apply (Img2TextProps.main_step_counts readtext getlogin utcnow
             input_root output_root) in Hstep.
    lia.
Qed.

End Ocr.

Lemma login_failure_leaves_partial_artifact_witness :
  exists w',
    process_image Sample.readtext (Raise OSError) Sample.utcnow
      Sample.mirrored_disk Sample.page1_jpg Sample.page1_txt = (false, w')
    /\ files w' !! Sample.page1_txt
       = Some ("Source Image: " +:+ Pathlib.name Sample.page1_jpg +:+ nl
               +:+ "Processing Date (UTC): " +:+ Sample.utcnow Sample.page1_jpg
               +:+ nl).
Proof.
  apply (login_failure_leaves_partial_artifact Sample.readtext (Raise OSError)
           Sample.utcnow Sample.mirrored_disk Sample.opened_disk
           Sample.page1_jpg Sample.page1_txt ["Hello"; "World"] OSError).
  - reflexivity.
  - vm_compute. reflexivity.
  - reflexivity.
Defined.


Lemma blocked_parent_aborts_the_run_witness :
  exists e,
    (e = FileExistsError \/ e = NotADirectoryError)
    /\ create_output_path Sample.input_root Sample.output_root
         (world (mkRun SampleMore.blocked_disk 0 0)) Sample.page1_jpg
       = Raise e
    /\ main_loop Sample.readtext (Ok "ishan") Sample.utcnow
         Sample.input_root Sample.output_root
         (Sample.page1_jpg :: [Sample.a_png])
         (mkRun SampleMore.blocked_disk 0 0)
       = Raise e.
Proof.
  apply (blocked_parent_aborts_the_run Sample.readtext (Ok "ishan")
           Sample.utcnow Sample.input_root Sample.output_root
           (mkRun SampleMore.blocked_disk 0 0) Sample.page1_jpg
           Sample.page1_txt ["text_output"; "jung"] [Sample.a_png]).
  - vm_compute. reflexivity.
  - vm_compute. right. left. reflexivity.
  - vm_compute. reflexivity.
Defined.

Lemma ocr_loop_completes_on_clear_tree_witness :
  exists st',
    main_loop Sample.readtext (Ok "ishan") Sample.utcnow
      Sample.input_root Sample.output_root
      [Sample.page1_jpg; Sample.a_png] (mkRun Sample.ready_disk 0 0) = Ok st'
    /\ successful st' + failed st'
       = successful (mkRun Sample.ready_disk 0 0)
         + failed (mkRun Sample.ready_disk 0 0)
         + length [Sample.page1_jpg; Sample.a_png].
Proof.
  apply (ocr_loop_completes_on_clear_tree Sample.readtext (Ok "ishan")
           Sample.utcnow Sample.input_root Sample.output_root
           [Sample.page1_jpg; Sample.a_png] (mkRun Sample.ready_disk 0 0)).
  intros img [<-|[<-|[]]].
  - exists Sample.page1_txt. split; [vm_compute; reflexivity|].
    intros b [->|[<-|[<-|[]]]];
      (split; [vm_compute; reflexivity|]);
      intros other [<-|[<-|[]]]; vm_compute; discriminate.
  - exists Sample.a_txt. split; [vm_compute; reflexivity|].
    intros b [->|[<-|[<-|[]]]];
      (split; [vm_compute; reflexivity|]);
      intros other [<-|[<-|[]]]; vm_compute; discriminate.
Defined.

End Img2TextMore.
